(** * A shallow embedding of the RAG demo: [src/app.py] and [src/vectordb.py]

    The repository is orchestration glue around four external services:
    the file readers, the text splitter, the sentence-embedding model with
    the ChromaDB collection, and the hosted chat model.  The embedding keeps
    the glue as executable definitions and takes the services as fields of
    one class, [Externals]; Python values that the glue handles without
    knowing their type are values of [pyval]. *)

From Stdlib Require Import ZArith QArith String Ascii List Lia.
From stdpp Require Import base tactics option list strings pretty gmap.

Set Warnings "-register-all".
Local Open Scope string_scope.
Local Open Scope list_scope.

(** ** Python values and exceptions *)

(** The dynamically typed values that flow through the glue code: document
    mappings, metadata, the entries of a query result. A [dict] keeps its
    insertion order, so it is an association list. *)
Inductive pyval : Type :=
| PNone
| PBool (b : bool)
| PInt (z : Z)
| PFloat (q : Q)
| PStr (s : string)
| PList (l : list pyval)
| PDict (d : list (string * pyval)).

(** An instance of a subclass of Python's [Exception]: the class name and
    the text that [str(e)] gives. *)
Record exn : Type := Exn { exn_class : string; exn_msg : string }.

Inductive result (A : Type) : Type :=
| Ok (a : A)
| Raise (e : exn).
Arguments Ok {A} a.
Arguments Raise {A} e.

Definition AttributeError (m : string) : exn := Exn "AttributeError" m.
Definition TypeError (m : string) : exn := Exn "TypeError" m.
Definition ValueError (m : string) : exn := Exn "ValueError" m.
Definition EOFError (m : string) : exn := Exn "EOFError" m.

(** [type(v).__name__] *)
Definition py_type_name (v : pyval) : string :=
  match v with
  | PNone => "NoneType"
  | PBool _ => "bool"
  | PInt _ => "int"
  | PFloat _ => "float"
  | PStr _ => "str"
  | PList _ => "list"
  | PDict _ => "dict"
  end.

(** [d.get(key, default)] on a dict. *)
Fixpoint dict_get (d : list (string * pyval)) (key : string) (default : pyval)
  : pyval :=
  match d with
  | [] => default
  | (k, v) :: d' => if String.eqb k key then v else dict_get d' key default
  end.

(** [key in d] on a dict. *)
Definition dict_has (d : list (string * pyval)) (key : string) : bool :=
  existsb (fun kv => String.eqb (fst kv) key) d.

(** Truth value of a dict: false when empty. *)
Definition dict_truthy (d : list (string * pyval)) : bool :=
  match d with [] => false | _ :: _ => true end.

(** [v.get(key, default)] on an arbitrary value: only a dict has the
    method, every other type raises [AttributeError]. *)
Definition py_get (v : pyval) (key : string) (default : pyval) : result pyval :=
  match v with
  | PDict d => Ok (dict_get d key default)
  | _ => Raise (AttributeError
                  ("'" ++ py_type_name v ++ "' object has no attribute 'get'"))
  end.

(** ** Strings *)

(** The newline character, as a string. *)
Definition nl : string := String "010"%char EmptyString.

(** [sep.join(l)] on a list of strings. *)
Fixpoint join (sep : string) (l : list string) : string :=
  match l with
  | [] => ""
  | [s] => s
  | s :: l' => s ++ sep ++ join sep l'
  end.

(** The strings of a sequence whose items are all [str]; the index and the
    value of the first item that is not. *)
Fixpoint str_items (i : nat) (l : list pyval) : list string + nat * pyval :=
  match l with
  | [] => inl []
  | PStr s :: l' =>
      match str_items (S i) l' with
      | inl ss => inl (s :: ss)
      | inr bad => inr bad
      end
  | v :: _ => inr (i, v)
  end.

(** Iterating a string yields its characters, each as a string. *)
Fixpoint chars (s : string) : list string :=
  match s with
  | EmptyString => []
  | String c s' => String c EmptyString :: chars s'
  end.

(** [sep.join(v)] on an arbitrary value: a list must hold only strings, a
    string is iterated by character, a dict by key, and the scalars are not
    iterable. *)
Definition py_join (sep : string) (v : pyval) : result string :=
  match v with
  | PList l =>
      match str_items 0 l with
      | inl ss => Ok (join sep ss)
      | inr (i, bad) =>
          Raise (TypeError ("sequence item " ++ pretty i
                              ++ ": expected str instance, "
                              ++ py_type_name bad ++ " found"))
      end
  | PStr s => Ok (join sep (chars s))
  | PDict d => Ok (join sep (map fst d))
  | _ => Raise (TypeError "can only join an iterable")
  end.

(** [s.lower()] for ASCII text, where Python changes the letters A to Z
    and nothing else. On other characters [str.lower] follows Unicode
    (and its context rules); that mapping is not modelled, and [lower]
    stands for the method only on strings whose characters are all below
    128. *)
Definition lower_ascii (c : ascii) : ascii :=
  let n := nat_of_ascii c in
  if (65 <=? n)%nat && (n <=? 90)%nat then ascii_of_nat (n + 32) else c.

Fixpoint lower (s : string) : string :=
  match s with
  | EmptyString => EmptyString
  | String c s' => String (lower_ascii c) (lower s')
  end.

(** [s.split(sep)] for a one-character separator: never empty. *)
Fixpoint split_char (sep : ascii) (s : string) : list string :=
  match s with
  | EmptyString => [EmptyString]
  | String c s' =>
      if Ascii.eqb c sep then EmptyString :: split_char sep s'
      else match split_char sep s' with
           | [] => [String c EmptyString]
           | w :: ws => String c w :: ws
           end
  end.

(** [filename.lower().split(".")[-1]], for ASCII file names (see
    [lower]). *)
Definition extension (filename : string) : string :=
  List.last (split_char "." (lower filename)) "".

(** ** The external services *)

Inductive provider : Type := OpenAI | Groq | Google | Perplexity.

(** A chat-model client as [_initialize_llm] builds it; the temperature is
    the constant [0.0] for every provider. *)
Record llm_client : Type := LLM {
  llm_provider : provider;
  llm_api_key : string;
  llm_model : string
}.

(** Everything the repository calls and does not define. A reader either
    returns or raises an [Exception]; the store's state is [db], and a write
    hands back the state it left behind, also when it raises. *)
Class Externals : Type := {
  (* os and the document readers *)
  listdir : string -> result (list string);
  path_join : string -> string -> string;
  isfile : string -> bool;
  read_text : string -> result string;
  fitz_open : string -> result (list (result string));
  docx_paragraphs : string -> result (list string);
  (* langchain_text_splitters.RecursiveCharacterTextSplitter *)
  splitter : Type;
  new_splitter : Z -> Z -> result splitter;
  split_text : splitter -> pyval -> result (list string);
  (* sentence_transformers.SentenceTransformer *)
  vec : Type;
  model : Type;
  SentenceTransformer : string -> result model;
  encode : model -> list string -> result (list vec);
  (* chromadb.PersistentClient(path="./chroma_db") and its collections *)
  db : Type;
  get_or_create_collection : db -> string -> result unit * db;
  collection_add :
    db -> string -> list string -> list pyval -> list vec -> list string ->
    result unit * db;
  collection_query :
    db -> string -> list vec -> Z -> list string ->
    result (list (string * pyval));
  (* prompt | llm | StrOutputParser(), on the rendered prompt *)
  chat : llm_client -> string -> result string
}.

(** One call of [collection.add], as the store receives it. *)
Record add_call `{Externals} : Type := AddCall {
  ac_collection : string;
  ac_documents : list string;
  ac_metadatas : list pyval;
  ac_embeddings : list vec;
  ac_ids : list string
}.
Arguments AddCall {_} _ _ _ _ _.

(** What a run can change: the store, the text written to standard output,
    and the trace of writes sent to the store (oldest first). *)
Record world `{Externals} : Type := World {
  w_db : db;
  w_out : list string;
  w_adds : list add_call
}.
Arguments World {_} _ _ _.

(** ** Commands: state that survives an exception *)

Definition M `{Externals} (A : Type) : Type := world -> result A * world.

Section Monad.
Context `{X : Externals}.

Definition ret {A} (a : A) : M A := fun w => (Ok a, w).

Definition bind {A B} (c : M A) (k : A -> M B) : M B :=
  fun w => match c w with
           | (Ok a, w') => k a w'
           | (Raise e, w') => (Raise e, w')
           end.

Definition raise {A} (e : exn) : M A := fun w => (Raise e, w).

(** A pure call that may raise. *)
Definition lift {A} (r : result A) : M A := fun w => (r, w).

(** [try: c except Exception as e: h e] *)
Definition try_catch {A} (c : M A) (h : exn -> M A) : M A :=
  fun w => match c w with
           | (Ok a, w') => (Ok a, w')
           | (Raise e, w') => h e w'
           end.

(** [sys.stdout.write(s)] *)
Definition write (s : string) : M unit :=
  fun w => (Ok tt, World (w_db w) (w_out w ++ [s]) (w_adds w)).

(** [print(s)] *)
Definition print (s : string) : M unit := write (s +:+ nl).
End Monad.

Declare Scope M_scope.
Notation "x <- c ;; k" := (bind c (fun x => k))
  (at level 100, c at next level, right associativity) : M_scope.
Notation "c ;; k" := (bind c (fun _ => k))
  (at level 100, right associativity) : M_scope.
Delimit Scope M_scope with M.
Bind Scope M_scope with M.
Local Open Scope M_scope.

(** ** [src/app.py]: load_documents *)

Section Loader.
Context `{X : Externals}.

(** [text = ""; for page in doc: text += page.get_text()] *)
Definition read_pages (pages : list (result string)) : result string :=
  fold_left (fun acc page =>
               match acc, page with
               | Ok text, Ok t => Ok (text +:+ t)
               | Ok _, Raise e => Raise e
               | Raise e, _ => Raise e
               end) pages (Ok "").

(** The body of the [try] for one file: the text to append, or [None]
    after the diagnostic for an extension that is not supported. *)
Definition load_file (filename filepath : string) : M (option string) :=
  let ext := extension filename in
  if String.eqb ext "txt" then
    text <- lift (read_text filepath) ;;
    ret (Some text)
  else if String.eqb ext "pdf" then
    doc <- lift (fitz_open filepath) ;;
    text <- lift (read_pages doc) ;;
    ret (Some text)
  else if String.eqb ext "doc" || String.eqb ext "docx" then
    paragraphs <- lift (docx_paragraphs filepath) ;;
    ret (Some (join nl paragraphs))
  else
    print ("Unsupported file type skipped: " +:+ filename) ;;
    ret None.

(** The [for filename in os.listdir(data_dir)] loop, [results] being the
    list built so far. *)
Fixpoint load_loop (data_dir : string) (names : list string)
    (results : list string) : M (list string) :=
  match names with
  | [] => ret results
  | filename :: rest =>
      let filepath := path_join data_dir filename in
      if isfile filepath then
        r <- try_catch (load_file filename filepath)
               (fun e =>
                  print ("Error loading " +:+ filename +:+ ": "
                           +:+ exn_msg e) ;;
                  ret None) ;;
        load_loop data_dir rest
          (match r with Some text => results ++ [text] | None => results end)
      else load_loop data_dir rest results
  end.

Definition load_documents (data_dir : string) : M (list string) :=
  names <- lift (listdir data_dir) ;;
  load_loop data_dir names [].
End Loader.

(** ** The process environment *)

(** [os.getenv(key)] is [env !! key]; [os.getenv(key, default)] falls back
    only when the variable is unset. *)
Definition getenv_default (env : gmap string string) (key default : string)
  : string :=
  match env !! key with Some v => v | None => default end.

(** Truth value of an optional string: [None] and [""] are false. *)
Definition truthy (o : option string) : bool :=
  match o with
  | Some s => negb (String.eqb s "")
  | None => false
  end.

(** [o or d] for an optional string [o]. *)
Definition or_else (o : option string) (d : string) : string :=
  match o with
  | Some s => if String.eqb s "" then d else s
  | None => d
  end.

(** ** [src/vectordb.py]: class VectorDB *)

Module VectorDB.
Section VectorDB.
Context `{X : Externals}.

(** The attributes of an instance; [self.collection] is the collection of
    that name in the store. *)
Record t : Type := Make {
  collection_name : string;
  embedding_model_name : string;
  embedding_model : model
}.

(** [self.client.get_or_create_collection(name=..., metadata=...)],
    together with opening the client on [./chroma_db]. *)
Definition open_collection (name : string) : M unit :=
  fun w => let '(r, d) := get_or_create_collection (w_db w) name in
           (r, World d (w_out w) (w_adds w)).

(** [self.collection.add(documents=..., metadatas=..., embeddings=...,
    ids=...)] *)
Definition add_to_collection (name : string) (documents : list string)
  (metadatas : list pyval) (embeddings : list vec) (ids : list string)
  : M unit :=
  fun w =>
    let '(r, d) :=
      collection_add (w_db w) name documents metadatas embeddings ids in
    (r, World d (w_out w)
          (w_adds w ++ [AddCall name documents metadatas embeddings ids])).

(** [self.collection.query(query_embeddings=..., n_results=...,
    include=...)] *)
Definition query_collection (name : string) (query_embeddings : list vec)
  (n_results : Z) (include : list string) : M (list (string * pyval)) :=
  fun w =>
    (collection_query (w_db w) name query_embeddings n_results include, w).

Definition __init__ (env : gmap string string)
  (collection_name embedding_model : option string) : M t :=
  let cname :=
    or_else collection_name
      (getenv_default env "CHROMA_COLLECTION_NAME" "rag_documents") in
  let mname :=
    or_else embedding_model
      (getenv_default env "EMBEDDING_MODEL"
         "sentence-transformers/all-MiniLM-L6-v2") in
  print ("Loading embedding model: " +:+ mname) ;;
  m <- lift (SentenceTransformer mname) ;;
  open_collection cname ;;
  print ("Vector database initialized with collection: " +:+ cname) ;;
  ret (Make cname mname m).

Definition chunk_text (self : t) (text : pyval) (chunk_size overlap : Z)
  : M (list string) :=
  splitter <- lift (new_splitter chunk_size overlap) ;;
  chunks <- lift (split_text splitter text) ;;
  ret chunks.

(** [[f"doc_{doc_id}_chunk_{i}" for i in range(n)]] *)
Definition chunk_ids (doc_id n : nat) : list string :=
  map (fun i => "doc_" +:+ pretty doc_id +:+ "_chunk_" +:+ pretty i)
    (seq 0 n).

(** The body of [for doc_id, doc in enumerate(documents)], from index
    [doc_id] on. *)
Fixpoint add_loop (self : t) (doc_id : nat) (documents : list pyval)
  : M unit :=
  match documents with
  | [] => ret tt
  | doc :: rest =>
      content <- lift (py_get doc "content" (PStr "")) ;;
      metadata <- lift (py_get doc "metadata" (PDict [])) ;;
      chunks <- chunk_text self content 500 50 ;;
      print ("Document " +:+ pretty doc_id +:+ ": Split into "
               +:+ pretty (length chunks) +:+ " chunks") ;;
      let ids := chunk_ids doc_id (length chunks) in
      embeddings <- lift (encode (embedding_model self) chunks) ;;
      add_to_collection (collection_name self) chunks
        (replicate (length chunks) metadata) embeddings ids ;;
      add_loop self (S doc_id) rest
  end.

Definition add_documents (self : t) (documents : list pyval) : M unit :=
  print ("Processing " +:+ pretty (length documents) +:+ " documents...") ;;
  add_loop self 0 documents ;;
  print "Documents added to vector database".

Definition result_keys : list string :=
  ["documents"; "metadatas"; "distances"; "ids"].

Definition empty_result : list (string * pyval) :=
  [("documents", PList []); ("metadatas", PList []);
   ("distances", PList []); ("ids", PList [])].

Definition search (self : t) (query : string) (n_results : Z)
  : M (list (string * pyval)) :=
  query_embedding <- lift (encode (embedding_model self) [query]) ;;
  results <- query_collection (collection_name self) query_embedding
               n_results result_keys ;;
  if dict_truthy results && forallb (dict_has results) result_keys
  then ret results
  else ret empty_result.
End VectorDB.
End VectorDB.

(** ** [src/app.py]: class RAGAssistant *)

Module RAGAssistant.
Section RAGAssistant.
Context `{X : Externals}.

Record t : Type := Make {
  llm : llm_client;
  vector_db : VectorDB.t
}.

Definition no_key_message : string :=
  "No valid API key found. Please set one of: OPENAI_API_KEY, GROQ_API_KEY, or GOOGLE_API_KEY in your .env file".

Definition _initialize_llm (env : gmap string string) : M llm_client :=
  if truthy (env !! "OPENAI_API_KEY") then
    let model_name := getenv_default env "OPENAI_MODEL" "gpt-4o-mini" in
    print ("Using OpenAI model: " +:+ model_name) ;;
    ret (LLM OpenAI (default "" (env !! "OPENAI_API_KEY")) model_name)
  else if truthy (env !! "GROQ_API_KEY") then
    let model_name :=
      getenv_default env "GROQ_MODEL" "llama-3.1-8b-instant" in
    print ("Using Groq model: " +:+ model_name) ;;
    ret (LLM Groq (default "" (env !! "GROQ_API_KEY")) model_name)
  else if truthy (env !! "GOOGLE_API_KEY") then
    let model_name := getenv_default env "GOOGLE_MODEL" "gemini-2.0-flash" in
    print ("Using Google Gemini model: " +:+ model_name) ;;
    ret (LLM Google (default "" (env !! "GOOGLE_API_KEY")) model_name)
  else if truthy (env !! "PPLX_API_KEY") then
    let model_name := getenv_default env "PPLX_MODEL" "gemini-1.5-flash" in
    print ("Using Perplexity model: " +:+ model_name) ;;
    ret (LLM Perplexity (default "" (env !! "PPLX_API_KEY")) model_name)
  else
    raise (ValueError no_key_message).

(** The twelve spaces that indent every line of the template literal. *)
Definition indent : string := "            ".

(** [self.prompt_template], applied to a context and a question. *)
Definition render_prompt (context question : string) : string :=
  nl +:+ indent +:+
  "Use the following context to answer the user's question." +:+ nl +:+
  indent +:+ nl +:+
  indent +:+ "Context: " +:+ context +:+ nl +:+
  nl +:+
  indent +:+ "Question: " +:+ question +:+ nl +:+
  nl +:+
  indent +:+
  "Answer as clearly and concisely as possible, referring only to the given context."
  +:+ nl +:+
  indent.

(** The [if not self.llm: raise ValueError(...)] of the source never
    fires: a client object is true. *)
Definition __init__ (env : gmap string string) : M t :=
  llm <- _initialize_llm env ;;
  vector_db <- VectorDB.__init__ env None None ;;
  print "RAG Assistant initialized successfully" ;;
  ret (Make llm vector_db).

Definition add_documents (self : t) (documents : list pyval) : M unit :=
  VectorDB.add_documents (vector_db self) documents.

Definition invoke (self : t) (input : string) (n_results : Z) : M string :=
  search_results <- VectorDB.search (vector_db self) input n_results ;;
  let context_chunks := dict_get search_results "documents" (PList []) in
  context_str <- lift (py_join nl context_chunks) ;;
  llm_answer <- lift (chat (llm self) (render_prompt context_str input)) ;;
  ret llm_answer.

(** The methods that the class body defines; [query] is not one of them. *)
Inductive method : Type :=
| m_init | m_initialize_llm | m_add_documents | m_invoke.

Definition find_method (name : string) : option method :=
  if String.eqb name "__init__" then Some m_init
  else if String.eqb name "_initialize_llm" then Some m_initialize_llm
  else if String.eqb name "add_documents" then Some m_add_documents
  else if String.eqb name "invoke" then Some m_invoke
  else None.

(** The data attributes that [__init__] assigns. *)
Definition data_attributes : list string :=
  ["llm"; "vector_db"; "prompt_template"; "chain"].

(** [str(self.<name>(arg))] for a string [arg]: attribute lookup on the
    instance, then the call with one positional argument. A name that is
    neither a method nor a data attribute raises [AttributeError]. *)
Definition call_attribute (self : t) (name : string) (arg : string)
  : M string :=
  match find_method name with
  | Some m_invoke => invoke self arg 3
  | Some m_add_documents =>
      add_documents self (map PStr (chars arg)) ;; ret "None"
  | Some m_init | Some m_initialize_llm =>
      raise (TypeError ("RAGAssistant." +:+ name
               +:+ "() takes 1 positional argument but 2 were given"))
  | None =>
      if existsb (String.eqb name) data_attributes
      then raise (TypeError "object is not callable")
      else raise (AttributeError
                    ("'RAGAssistant' object has no attribute '"
                       +:+ name +:+ "'"))
  end.
End RAGAssistant.
End RAGAssistant.

(** ** [src/app.py]: main *)

Section Main.
Context `{X : Externals}.

Definition input_prompt : string := "Enter a question or 'quit' to exit: ".

(** [while not done: ...] on the lines that standard input still holds;
    [input] writes its prompt and raises [EOFError] at end of input. *)
Fixpoint interactive_loop (assistant : RAGAssistant.t) (stdin : list string)
  : M unit :=
  write input_prompt ;;
  match stdin with
  | [] => raise (EOFError "EOF when reading a line")
  | question :: rest =>
      if String.eqb (lower question) "quit" then ret tt
      else
        result <- RAGAssistant.call_attribute assistant "query" question ;;
        print result ;;
        interactive_loop assistant rest
  end.

Definition main (env : gmap string string) (stdin : list string) : M unit :=
  try_catch
    (print "Initializing RAG Assistant..." ;;
     assistant <- RAGAssistant.__init__ env ;;
     print (nl +:+ "Loading documents...") ;;
     sample_docs <- load_documents "data" ;;
     print ("Loaded " +:+ pretty (length sample_docs)
              +:+ " sample documents") ;;
     RAGAssistant.add_documents assistant (map PStr sample_docs) ;;
     interactive_loop assistant stdin)
    (fun e =>
       print ("Error running RAG assistant: " +:+ exn_msg e) ;;
       print "Make sure you have set up your .env file with at least one API key:" ;;
       print "- OPENAI_API_KEY (OpenAI GPT models)" ;;
       print "- GROQ_API_KEY (Groq Llama models)" ;;
       print "- GOOGLE_API_KEY (Google Gemini models)").
End Main.

(** ** In-memory services

    A small, executable stand-in for the external services, used to run the
    glue on concrete inputs. The collection keeps its records in insertion
    order and behaves as chromadb's collection does. A write is refused
    with [ValueError] when the batch is empty or a metadata mapping is
    empty, a record whose identifier is already stored is left as it is,
    and a query is refused with [ValueError] when [include] holds an item
    other than documents, embeddings, metadatas, distances, uris and data;
    the identifiers are always part of the answer and [ids] is not an item
    to include. An answer holds, for every entry, one list per query
    embedding, nearest record first. *)

Module Reference.

Inductive file : Type :=
| Text (content : string)
| Pdf (pages : list string)
| Docx (paragraphs : list string)
| Corrupt.

Record row : Type := Row {
  r_id : string;
  r_document : string;
  r_metadata : pyval;
  r_embedding : list Z
}.

Definition lookup_file (files : list (string * file)) (path : string)
  : option file :=
  snd <$> find (fun nf => String.eqb ("data/" +:+ fst nf) path) files.

Definition bad_file (what : string) : exn := Exn "RuntimeError" what.

Definition ref_read_text (files : list (string * file)) (path : string)
  : result string :=
  match lookup_file files path with
  | Some (Text s) => Ok s
  | Some (Pdf pages) => Ok (join "" pages)
  | Some (Docx ps) => Ok (join "" ps)
  | Some Corrupt => Raise (Exn "UnicodeDecodeError" "invalid start byte")
  | None => Raise (Exn "FileNotFoundError" path)
  end.

Definition ref_fitz_open (files : list (string * file)) (path : string)
  : result (list (result string)) :=
  match lookup_file files path with
  | Some (Pdf pages) => Ok (map Ok pages)
  | _ => Raise (bad_file "Failed to open file")
  end.

Definition ref_docx (files : list (string * file)) (path : string)
  : result (list string) :=
  match lookup_file files path with
  | Some (Docx ps) => Ok ps
  | _ => Raise (bad_file "Package not found")
  end.

(** Windows of [size] characters, each starting [step] after the last. *)
Fixpoint windows (fuel size step : nat) (s : string) : list string :=
  match fuel with
  | O => []
  | S fuel' =>
      if (String.length s <=? size)%nat then [s]
      else substring 0 size s
             :: windows fuel' size step
                  (substring step (String.length s - step) s)
  end.

Definition ref_new_splitter (chunk_size overlap : Z) : result (Z * Z) :=
  if (chunk_size <? overlap)%Z
  then Raise (ValueError "Got a larger chunk overlap than chunk size")
  else if (chunk_size <=? 0)%Z
  then Raise (ValueError "chunk_size must be > 0")
  else Ok (chunk_size, overlap).

Definition ref_split_text (sp : Z * Z) (text : pyval) : result (list string) :=
  match text with
  | PStr "" => Ok []
  | PStr s =>
      Ok (windows (String.length s) (Z.to_nat (fst sp))
            (Nat.max 1 (Z.to_nat (fst sp - snd sp))) s)
  | _ => Raise (TypeError "expected string or bytes-like object")
  end.

(** A toy embedding: the length of the text and the sum of its character
    codes. *)
Fixpoint code_sum (s : string) : Z :=
  match s with
  | EmptyString => 0
  | String c s' => Z.of_nat (nat_of_ascii c) + code_sum s'
  end.

Definition embed (s : string) : list Z :=
  [Z.of_nat (String.length s); code_sum s].

Fixpoint distance (a b : list Z) : Z :=
  match a, b with
  | x :: a', y :: b' => (x - y) * (x - y) + distance a' b'
  | _, _ => 0
  end.

Fixpoint insert_by (q : list Z) (r : row) (l : list row)
  : list row :=
  match l with
  | [] => [r]
  | r' :: l' =>
      if (distance q (r_embedding r) <? distance q (r_embedding r'))%Z
      then r :: l
      else r' :: insert_by q r l'
  end.

(** Modelled from the spec: the [k] nearest stored records by a fixed
    distance, nearest first (section 4.4); the search is chromadb's and is
    missing from src/. The distance is the squared Euclidean one, over
    integer vectors. *)
Definition nearest (q : list Z) (n : Z) (l : list row) : list row :=
  take (Z.to_nat n) (fold_right (insert_by q) [] l).

Definition ref_get_or_create (d : gmap string (list row)) (name : string)
  : result unit * gmap string (list row) :=
  match d !! name with
  | Some _ => (Ok tt, d)
  | None => (Ok tt, <[name := []]> d)
  end.

Fixpoint zip_records (ids docs : list string) (metas : list pyval)
    (embs : list (list Z)) : list row :=
  match ids, docs, metas, embs with
  | i :: ids', t :: docs', m :: metas', e :: embs' =>
      Row i t m e :: zip_records ids' docs' metas' embs'
  | _, _, _, _ => []
  end.

Definition is_empty_dict (v : pyval) : bool :=
  match v with PDict [] => true | _ => false end.

Fixpoint has_duplicate (ids : list string) : bool :=
  match ids with
  | [] => false
  | i :: ids' => existsb (String.eqb i) ids' || has_duplicate ids'
  end.

(** The records of a batch whose identifier the collection does not hold
    yet. *)
Definition fresh_records (old batch : list row) : list row :=
  List.filter
    (fun r => negb (existsb (fun o => String.eqb (r_id o) (r_id r)) old))
    batch.

Definition ref_add (d : gmap string (list row)) (name : string)
    (docs : list string) (metas : list pyval) (embs : list (list Z))
    (ids : list string) : result unit * gmap string (list row) :=
  if (length ids =? 0)%nat
  then (Raise (ValueError "Expected IDs to be a non-empty list, got 0 IDs"), d)
  else if has_duplicate ids
  then (Raise (Exn "DuplicateIDError" "Expected IDs to be unique"), d)
  else if existsb is_empty_dict metas
  then (Raise (ValueError
                 "Expected metadata to be a non-empty dict, got 0 metadata attributes"),
        d)
  else if (length docs =? length ids)%nat && (length metas =? length ids)%nat
          && (length embs =? length ids)%nat
  then (Ok tt,
        <[name := default [] (d !! name)
                  ++ fresh_records (default [] (d !! name))
                       (zip_records ids docs metas embs)]> d)
  else (Raise (ValueError "Unequal lengths"), d).

Definition allowed_include : list string :=
  ["documents"; "embeddings"; "metadatas"; "distances"; "uris"; "data"].

(** The first item of [include] that the store does not know. *)
Definition refused_include (include : list string) : option string :=
  find (fun item => negb (existsb (String.eqb item) allowed_include)) include.

Definition include_message (item : string) : string :=
  "Expected include item to be one of documents, embeddings, metadatas, distances, uris, data, got "
  +:+ item.

(** The collection's [query]: the check of [include], then the nearest
    records of every query embedding as parallel columns; a column that is
    not included is [None]. *)
Definition ref_query (d : gmap string (list row)) (name : string)
    (qs : list (list Z)) (n : Z) (include : list string)
  : result (list (string * pyval)) :=
  match refused_include include with
  | Some item => Raise (ValueError (include_message item))
  | None =>
      let hits := map (fun q => nearest q n (default [] (d !! name))) qs in
      let column (f : list Z -> row -> pyval) :=
        PList (map (fun qh => PList (map (f (fst qh)) (snd qh)))
                 (zip qs hits)) in
      let included (key : string) (v : pyval) :=
        if existsb (String.eqb key) include then v else PNone in
      Ok [("ids", column (fun _ r => PStr (r_id r)));
          ("embeddings",
            included "embeddings"
              (column (fun _ r => PList (map PInt (r_embedding r)))));
          ("documents",
            included "documents" (column (fun _ r => PStr (r_document r))));
          ("uris", PNone);
          ("data", PNone);
          ("metadatas",
            included "metadatas" (column (fun _ r => r_metadata r)));
          ("distances",
            included "distances"
              (column (fun q r =>
                         PFloat (inject_Z (distance q (r_embedding r))))))]
  end.

#[local] Instance services (files : list (string * file)) : Externals := {|
  listdir := fun dir =>
    if String.eqb dir "data" then Ok (map fst files)
    else Raise (Exn "FileNotFoundError" dir);
  path_join := fun dir name => dir +:+ "/" +:+ name;
  isfile := fun path => bool_decide (is_Some (lookup_file files path));
  read_text := ref_read_text files;
  fitz_open := ref_fitz_open files;
  docx_paragraphs := ref_docx files;
  splitter := Z * Z;
  new_splitter := ref_new_splitter;
  split_text := ref_split_text;
  vec := list Z;
  model := string;
  SentenceTransformer := fun name => Ok name;
  encode := fun _ texts => Ok (map embed texts);
  db := gmap string (list row);
  get_or_create_collection := ref_get_or_create;
  collection_add := ref_add;
  collection_query := ref_query;
  chat := fun client prompt =>
    Ok ("[" +:+ llm_model client +:+ "] " +:+ prompt)
|}.

Definition start (files : list (string * file)) : @world (services files) :=
  @World (services files) ∅ [] [].

Definition store (files : list (string * file))
    (d : gmap string (list row)) : @world (services files) :=
  @World (services files) d [] [].

Definition vdb (files : list (string * file)) : @VectorDB.t (services files) :=
  @VectorDB.Make (services files) "rag_documents"
    "sentence-transformers/all-MiniLM-L6-v2"
    "sentence-transformers/all-MiniLM-L6-v2".

Definition assistant (files : list (string * file))
  : @RAGAssistant.t (services files) :=
  @RAGAssistant.Make (services files) (LLM Groq "gsk" "llama-3.1-8b-instant")
    (vdb files).
End Reference.

(** ** Descriptions to compare the code with *)

(** The provider priority as the specification words it: probe the
    credentials in a fixed order and take the first one present. *)
Definition credential_var (p : provider) : string :=
  match p with
  | OpenAI => "OPENAI_API_KEY"
  | Groq => "GROQ_API_KEY"
  | Google => "GOOGLE_API_KEY"
  | Perplexity => "PPLX_API_KEY"
  end.

Definition model_var (p : provider) : string :=
  match p with
  | OpenAI => "OPENAI_MODEL"
  | Groq => "GROQ_MODEL"
  | Google => "GOOGLE_MODEL"
  | Perplexity => "PPLX_MODEL"
  end.

Definition default_model (p : provider) : string :=
  match p with
  | OpenAI => "gpt-4o-mini"
  | Groq => "llama-3.1-8b-instant"
  | Google => "gemini-2.0-flash"
  | Perplexity => "gemini-1.5-flash"
  end.

Definition priority : list provider := [OpenAI; Groq; Google; Perplexity].

(** A credential is present when its variable is set to a non-empty text. *)
Definition present (env : gmap string string) (p : provider) : bool :=
  truthy (env !! credential_var p).

Definition selected_provider (env : gmap string string) : option provider :=
  find (present env) priority.

Definition client_for (env : gmap string string) (p : provider) : llm_client :=
  LLM p (default "" (env !! credential_var p))
    (getenv_default env (model_var p) (default_model p)).

(** [print] of each line in turn. *)
Definition printed (lines : list string) : list string :=
  map (fun s => s +:+ nl) lines.

(** [needle in haystack] for strings. *)
Fixpoint contains (needle haystack : string) : bool :=
  String.prefix needle haystack ||
  match haystack with
  | EmptyString => false
  | String _ rest => contains needle rest
  end.

(** What happens to one directory entry, as the specification of the
    loader words it. *)
Inductive outcome : Type :=
| NotAFile
| Unsupported
| Failed (e : exn)
| Loaded (text : string).

Section Outcome.
Context `{X : Externals}.

Definition read_outcome (r : result string) : outcome :=
  match r with Ok text => Loaded text | Raise e => Failed e end.

Definition file_outcome (data_dir filename : string) : outcome :=
  let filepath := path_join data_dir filename in
  let ext := extension filename in
  if negb (isfile filepath) then NotAFile
  else if String.eqb ext "txt" then read_outcome (read_text filepath)
  else if String.eqb ext "pdf" then
    match fitz_open filepath with
    | Ok pages => read_outcome (read_pages pages)
    | Raise e => Failed e
    end
  else if String.eqb ext "doc" || String.eqb ext "docx" then
    match docx_paragraphs filepath with
    | Ok paragraphs => Loaded (join nl paragraphs)
    | Raise e => Failed e
    end
  else Unsupported.

Definition loaded_text (o : outcome) : option string :=
  match o with Loaded text => Some text | _ => None end.

Definition diagnostic (filename : string) (o : outcome) : list string :=
  match o with
  | Unsupported => ["Unsupported file type skipped: " +:+ filename]
  | Failed e => ["Error loading " +:+ filename +:+ ": " +:+ exn_msg e]
  | NotAFile | Loaded _ => []
  end.

Definition is_loaded (o : outcome) : bool :=
  match o with Loaded _ => true | _ => false end.

(** The texts of the entries that load, in directory order, and the lines
    printed for the others. *)
Definition loaded_texts (data_dir : string) (names : list string)
  : list string :=
  omap (fun f => loaded_text (file_outcome data_dir f)) names.

Definition diagnostics (data_dir : string) (names : list string)
  : list string :=
  flat_map (fun f => diagnostic f (file_outcome data_dir f)) names.
End Outcome.

(** [c in s] for a character. *)
Fixpoint occurs (c : ascii) (s : string) : bool :=
  match s with
  | EmptyString => false
  | String a s' => Ascii.eqb a c || occurs c s'
  end.

(** What one document contributes before anything is embedded: its
    metadata and the chunks of its content. *)
Definition document_chunks `{Externals} (doc : pyval)
  : result (pyval * list string) :=
  match py_get doc "content" (PStr "") with
  | Raise e => Raise e
  | Ok content =>
      match py_get doc "metadata" (PDict []) with
      | Raise e => Raise e
      | Ok metadata =>
          match new_splitter 500 50 with
          | Raise e => Raise e
          | Ok sp =>
              match split_text sp content with
              | Raise e => Raise e
              | Ok chunks => Ok (metadata, chunks)
              end
          end
      end
  end.

(** A document mapping with the keys it lacks written out: ["content"] as
    the empty string, ["metadata"] as the empty mapping. *)
Definition fill_defaults (doc : pyval) : pyval :=
  match doc with
  | PDict d =>
      PDict ((if dict_has d "content" then [] else [("content", PStr "")])
             ++ (if dict_has d "metadata" then [] else [("metadata", PDict [])])
             ++ d)
  | _ => doc
  end.

(** The identifiers that the store received between two worlds. *)
Definition new_ids `{Externals} (before after : world) : list string :=
  concat (map ac_ids (drop (length (w_adds before)) (w_adds after))).

(** ** Sample inputs *)

Module Sample.
Import Reference.

Definition sky : string := "The sky is blue. Grass is green.".
Definition question : string := "What color is the sky?".

Definition env_groq_google : gmap string string :=
  {[ "GROQ_API_KEY" := "gsk"; "GOOGLE_API_KEY" := "AIza" ]}.

(** A directory with one text file. *)
Definition one_file : list (string * file) := [("sky.txt", Text sky)].

(** A directory with a corrupt PDF between two valid files, and a file of
    an extension that the loader does not know. *)
Definition mixed : list (string * file) :=
  [("sky.TXT", Text sky); ("broken.pdf", Corrupt);
   ("memo.docx", Docx ["Dear all,"; "the sky is blue."]);
   ("notes.md", Text "# notes")].

(** The store once the collection exists and is still empty. *)
Definition opened : @world (services []) :=
  store [] {[ "rag_documents" := [] ]}.

(** The sky document, with the file it comes from as its metadata. *)
Definition sky_document : pyval :=
  PDict [("content", PStr sky);
         ("metadata", PDict [("source", PStr "sky.txt")])].

(** The store after the assistant has ingested the sky document. *)
Definition indexed : @world (services []) :=
  snd (RAGAssistant.add_documents (assistant []) [sky_document] opened).

(** The same document ingested a second time. *)
Definition indexed_twice : @world (services []) :=
  snd (RAGAssistant.add_documents (assistant []) [sky_document] indexed).

(** The record that the sky document leaves in the collection. *)
Definition sky_row : row :=
  Row "doc_0_chunk_0" sky (PDict [("source", PStr "sky.txt")]) (embed sky).

(** A document mapping with neither content nor metadata. *)
Definition untitled : pyval := PDict [("title", PStr "untitled")].
End Sample.

(** ** Further descriptions *)

(** A text whose characters are all ASCII (below 128). *)
Fixpoint ascii_only (s : string) : bool :=
  match s with
  | EmptyString => true
  | String c s' => (nat_of_ascii c <? 128)%nat && ascii_only s'
  end.

(** A command that never sends a write to the store. *)
Definition sends_no_write `{Externals} {A : Type} (c : M A) : Prop :=
  forall w, w_adds (snd (c w)) = w_adds w.

(** The sixteen spellings of the word [quit]: four characters, each in
    either case. *)
Definition quit_spelling (line : string) : Prop :=
  exists a b c d : ascii,
    line = String a (String b (String c (String d EmptyString)))
    /\ (a = "q" \/ a = "Q")%char /\ (b = "u" \/ b = "U")%char
    /\ (c = "i" \/ c = "I")%char /\ (d = "t" \/ d = "T")%char.

(** ** Services with a scripted store

    The in-memory services, except that the store answers every query with
    one fixed result: an empty mapping, a mapping that lacks a key, or an
    error. *)

Module Scripted.

#[local] Instance services (answer : result (list (string * pyval)))
  : Externals := {|
  listdir := @listdir (Reference.services []);
  path_join := @path_join (Reference.services []);
  isfile := @isfile (Reference.services []);
  read_text := @read_text (Reference.services []);
  fitz_open := @fitz_open (Reference.services []);
  docx_paragraphs := @docx_paragraphs (Reference.services []);
  splitter := @splitter (Reference.services []);
  new_splitter := @new_splitter (Reference.services []);
  split_text := @split_text (Reference.services []);
  vec := @vec (Reference.services []);
  model := @model (Reference.services []);
  SentenceTransformer := @SentenceTransformer (Reference.services []);
  encode := @encode (Reference.services []);
  db := @db (Reference.services []);
  get_or_create_collection :=
    @get_or_create_collection (Reference.services []);
  collection_add := @collection_add (Reference.services []);
  collection_query := fun _ _ _ _ _ => answer;
  chat := @chat (Reference.services [])
|}.

Definition start (answer : result (list (string * pyval)))
  : @world (services answer) :=
  @World (services answer) ∅ [] [].

Definition assistant (answer : result (list (string * pyval)))
  : @RAGAssistant.t (services answer) :=
  @RAGAssistant.Make (services answer)
    (LLM Groq "gsk" "llama-3.1-8b-instant")
    (@VectorDB.Make (services answer) "rag_documents"
       "sentence-transformers/all-MiniLM-L6-v2"
       "sentence-transformers/all-MiniLM-L6-v2").

(** The store is down. *)
Definition down : result (list (string * pyval)) :=
  Raise (Exn "ConnectionError" "store unavailable").

(** The store answers one query embedding with one list per entry. *)
Definition batched : list (string * pyval) :=
  [("ids", PList [PList [PStr "doc_0_chunk_0"]]);
   ("documents", PList [PList [PStr "The sky is blue."]]);
   ("metadatas", PList [PList [PDict [("source", PStr "sky.txt")]]]);
   ("distances", PList [PList [PFloat (inject_Z 0)]])].

(** The store answers without the distances. *)
Definition partial : list (string * pyval) :=
  [("ids", PList [PList [PStr "doc_0_chunk_0"]]);
   ("documents", PList [PList [PStr "The sky is blue."]]);
   ("metadatas", PList [PList [PDict []]])].
End Scripted.

(** * Properties *)

Ltac run :=
  unfold bind, ret, raise, lift, print, write, try_catch in *; simpl in *.

(** ** Provider selection *)

Section Selection.
Context `{X : Externals}.

Lemma initialize_llm_selected env w p :
  selected_provider env = Some p ->
  fst (RAGAssistant._initialize_llm env w) = Ok (client_for env p).
Proof.
  unfold selected_provider, present, RAGAssistant._initialize_llm, client_for.
  simpl.
  destruct (truthy (env !! "OPENAI_API_KEY")); [intros [= <-]; reflexivity|].
  destruct (truthy (env !! "GROQ_API_KEY")); [intros [= <-]; reflexivity|].
  destruct (truthy (env !! "GOOGLE_API_KEY")); [intros [= <-]; reflexivity|].
  destruct (truthy (env !! "PPLX_API_KEY")); [intros [= <-]; reflexivity|].
  discriminate.
Qed.

Lemma initialize_llm_none env w :
  selected_provider env = None ->
  RAGAssistant._initialize_llm env w
  = (Raise (ValueError RAGAssistant.no_key_message), w).
Proof.
  unfold selected_provider, present, RAGAssistant._initialize_llm.
  simpl.
  destruct (truthy (env !! "OPENAI_API_KEY")); [discriminate|].
  destruct (truthy (env !! "GROQ_API_KEY")); [discriminate|].
  destruct (truthy (env !! "GOOGLE_API_KEY")); [discriminate|].
  destruct (truthy (env !! "PPLX_API_KEY")); [discriminate|].
  reflexivity.
Qed.

Lemma init_keeps_client env w a w' :
  RAGAssistant.__init__ env w = (Ok a, w') ->
  fst (RAGAssistant._initialize_llm env w) = Ok (RAGAssistant.llm a).
Proof.
  unfold RAGAssistant.__init__, bind at 1.
  destruct (RAGAssistant._initialize_llm env w) as [[c|e] w1]; [|discriminate].
  unfold bind at 1.
  destruct (VectorDB.__init__ env None None w1) as [[v|e] w2]; [|discriminate].
  run. intros [= <- _]. reflexivity.
Qed.
End Selection.

(** C4, as amended: the provider is the first of OpenAI, Groq, Google,
    Perplexity whose credential is set to a non-empty value;
    [_initialize_llm] builds that provider's client with its model, the
    constructed assistant keeps it, and with no credential construction
    raises a [ValueError] whose text names OPENAI_API_KEY, GROQ_API_KEY
    and GOOGLE_API_KEY. With Groq and Google present and OpenAI absent,
    Groq is taken. *)
Theorem llm_provider_priority `{X : Externals} (env : gmap string string)
    (w : world) :
  match selected_provider env with
  | Some p =>
      fst (RAGAssistant._initialize_llm env w) = Ok (client_for env p)
      /\ (forall a w', RAGAssistant.__init__ env w = (Ok a, w') ->
                       RAGAssistant.llm a = client_for env p)
  | None =>
      RAGAssistant._initialize_llm env w
      = (Raise (ValueError RAGAssistant.no_key_message), w)
      /\ RAGAssistant.__init__ env w
         = (Raise (ValueError RAGAssistant.no_key_message), w)
  end
  /\ (present env OpenAI = false -> present env Groq = true ->
      present env Google = true -> selected_provider env = Some Groq)
  /\ forallb (fun p => contains (credential_var p) RAGAssistant.no_key_message)
       [OpenAI; Groq; Google] = true.
Proof.
  split; [|split].
  - destruct (selected_provider env) as [p|] eqn:Hsel.
    + split; [by apply initialize_llm_selected|].
      intros a w' Hinit. apply init_keeps_client in Hinit.
      rewrite (initialize_llm_selected env w p Hsel) in Hinit.
      by injection Hinit.
    + split; [by apply initialize_llm_none|].
      unfold RAGAssistant.__init__, bind at 1.
      by rewrite initialize_llm_none.
  - unfold selected_provider, priority. simpl. intros -> -> _. reflexivity.
  - vm_compute. reflexivity.
Qed.

Lemma llm_provider_priority_witness :
  selected_provider Sample.env_groq_google = Some Groq
  /\ fst (@RAGAssistant._initialize_llm (Reference.services [])
            Sample.env_groq_google (Reference.start []))
     = Ok (LLM Groq "gsk" "llama-3.1-8b-instant").
Proof.
  pose proof (@llm_provider_priority (Reference.services [])
                Sample.env_groq_google (Reference.start [])) as [H1 [H2 _]].
  assert (Hsel : selected_provider Sample.env_groq_google = Some Groq).
  { apply H2; vm_compute; reflexivity. }
  split; [exact Hsel|].
  rewrite Hsel in H1. destruct H1 as [H1 _]. rewrite H1.
  vm_compute. reflexivity.
Defined.

(** C4, the claim as stated fails: PPLX_API_KEY is one of the credentials
    that construction accepts, yet with no credential set the error that
    construction raises, a [ValueError], does not name it. *)
Lemma no_key_error_omits_perplexity :
  fst (@RAGAssistant._initialize_llm (Reference.services [])
         {[ "PPLX_API_KEY" := "pplx" ]} (Reference.start []))
  = Ok (LLM Perplexity "pplx" "gemini-1.5-flash")
  /\ @RAGAssistant.__init__ (Reference.services []) ∅ (Reference.start [])
     = (Raise (Exn "ValueError" RAGAssistant.no_key_message),
        Reference.start [])
  /\ contains "PPLX_API_KEY" RAGAssistant.no_key_message = false
  /\ forallb (fun p => contains (credential_var p)
                         RAGAssistant.no_key_message) priority = false.
Proof. repeat split; vm_compute; exact eq_refl. Qed.



(** ** Search and answer *)

Section Query.
Context `{X : Externals}.

Lemma search_unfold (self : VectorDB.t) (query : string) (n : Z) (w : world) :
  VectorDB.search self query n w
  = (match encode (VectorDB.embedding_model self) [query] with
     | Raise e => Raise e
     | Ok qe =>
         match collection_query (w_db w) (VectorDB.collection_name self) qe n
                 VectorDB.result_keys with
         | Raise e => Raise e
         | Ok r =>
             Ok (if dict_truthy r && forallb (dict_has r) VectorDB.result_keys
                 then r else VectorDB.empty_result)
         end
     end, w).
Proof.
  unfold VectorDB.search, VectorDB.query_collection. run.
  destruct (encode _ _) as [qe|e]; [|done].
  destruct (collection_query _ _ _ _ _) as [r|e]; [|done].
  by destruct (dict_truthy r && _).
Qed.

Lemma search_keeps_world (self : VectorDB.t) (query : string) (n : Z)
    (w : world) :
  snd (VectorDB.search self query n w) = w.
Proof. by rewrite search_unfold. Qed.

Lemma str_items_strings (texts : list string) (i : nat) :
  str_items i (map PStr texts) = inl texts.
Proof.
  revert i. induction texts as [|t texts IH]; intros i; simpl; [done|].
  by rewrite IH.
Qed.

Lemma invoke_unfold (self : RAGAssistant.t) (input : string) (n : Z)
    (w : world) (r : list (string * pyval)) :
  fst (VectorDB.search (RAGAssistant.vector_db self) input n w) = Ok r ->
  RAGAssistant.invoke self input n w
  = (match py_join nl (dict_get r "documents" (PList [])) with
     | Ok context => chat (RAGAssistant.llm self)
                       (RAGAssistant.render_prompt context input)
     | Raise e => Raise e
     end, w).
Proof.
  intros Hs. unfold RAGAssistant.invoke, bind at 1.
  pose proof (search_keeps_world (RAGAssistant.vector_db self) input n w) as Hw.
  destruct (VectorDB.search _ _ _ _) as [res w']. simpl in Hs, Hw. subst.
  run. destruct (py_join _ _); [|done].
  by destruct (chat _ _).
Qed.

(** When the store hands back the chunk texts themselves, the answer is the
    chat model's text for the rendered prompt, unchanged. *)
Lemma invoke_flat_documents (self : RAGAssistant.t) (input : string) (n : Z)
    (w : world) (r : list (string * pyval)) (texts : list string) :
  fst (VectorDB.search (RAGAssistant.vector_db self) input n w) = Ok r ->
  dict_get r "documents" (PList []) = PList (map PStr texts) ->
  RAGAssistant.invoke self input n w
  = (chat (RAGAssistant.llm self)
       (RAGAssistant.render_prompt (join nl texts) input), w).
Proof.
  intros Hs Hd. rewrite (invoke_unfold _ _ _ _ r Hs), Hd. simpl.
  by rewrite str_items_strings.
Qed.

(** When the entry holds one list per query embedding, the join fails on
    its first item and the chat model is never called. *)
Lemma invoke_batched_documents (self : RAGAssistant.t) (input : string)
    (n : Z) (w : world) (r : list (string * pyval))
    (hits rest : list pyval) :
  fst (VectorDB.search (RAGAssistant.vector_db self) input n w) = Ok r ->
  dict_get r "documents" (PList []) = PList (PList hits :: rest) ->
  RAGAssistant.invoke self input n w
  = (Raise (TypeError "sequence item 0: expected str instance, list found"),
     w).
Proof.
  intros Hs Hd. by rewrite (invoke_unfold _ _ _ _ r Hs), Hd.
Qed.

(** [search] hands back four empty sequences when the store's answer is an
    empty mapping or lacks one of the four keys, and the store's answer
    itself, unchanged, when it has all four. *)
Lemma search_result_or_four_empty (self : VectorDB.t) (query : string)
    (n : Z) (w : world) (qe : list vec) (r : list (string * pyval)) :
  encode (VectorDB.embedding_model self) [query] = Ok qe ->
  collection_query (w_db w) (VectorDB.collection_name self) qe n
    VectorDB.result_keys = Ok r ->
  ((r = [] \/ exists k, In k VectorDB.result_keys /\ dict_has r k = false) ->
   VectorDB.search self query n w = (Ok VectorDB.empty_result, w))
  /\ ((r <> [] /\ forall k, In k VectorDB.result_keys -> dict_has r k = true) ->
      VectorDB.search self query n w = (Ok r, w)).
Proof.
  intros He Hq. rewrite search_unfold, He, Hq. split.
  - intros [->|(k & Hk & Hmiss)]; [done|].
    destruct (forallb (dict_has r) VectorDB.result_keys) eqn:Hall.
    + rewrite forallb_forall in Hall. apply Hall in Hk. congruence.
    + by rewrite andb_false_r.
  - intros [Hne Hall].
    assert (forallb (dict_has r) VectorDB.result_keys = true) as ->
      by by apply forallb_forall.
    destruct r; [done|reflexivity].
Qed.
End Query.

(** ** The store refuses the query *)

Lemma distance_self (v : list Z) : Reference.distance v v = 0%Z.
Proof. induction v as [|x v IH]; cbn; [done|]. rewrite IH. lia. Qed.

(** With the in-memory services every [search] ends in the store's
    refusal of the item [ids], whatever the instance, the query, the
    number of results and the state of the store. *)
Lemma reference_search_refused (files : list (string * Reference.file))
    (self : @VectorDB.t (Reference.services files)) (query : string) (n : Z)
    (w : @world (Reference.services files)) :
  VectorDB.search self query n w
  = (Raise (ValueError (Reference.include_message "ids")), w).
Proof. rewrite search_unfold. reflexivity. Qed.

(** C6, where the code departs from the claim: on the collection that
    exists and holds nothing, [search] does not hand back four empty
    sequences. [search] has no handler, so for every store an error of the
    store's query is the result of [search]; and [search] asks the store
    to include [ids], an item that the store refuses with [ValueError],
    for every query and every number of results. *)
Theorem search_on_empty_collection_raises :
  (forall (X : Externals) (self : @VectorDB.t X) (query : string) (n : Z)
          (w : @world X) (qe : list vec) (e : exn),
      encode (VectorDB.embedding_model self) [query] = Ok qe ->
      collection_query (w_db w) (VectorDB.collection_name self) qe n
        VectorDB.result_keys = Raise e ->
      VectorDB.search self query n w = (Raise e, w))
  /\ w_db Sample.opened = {[ "rag_documents" := [] ]}
  /\ (forall (query : string) (n : Z),
        Reference.ref_query (w_db Sample.opened) "rag_documents"
          [Reference.embed query] n VectorDB.result_keys
        = Raise (ValueError (Reference.include_message "ids"))
        /\ VectorDB.search (Reference.vdb []) query n Sample.opened
           = (Raise (ValueError (Reference.include_message "ids")),
              Sample.opened)
        /\ fst (VectorDB.search (Reference.vdb []) query n Sample.opened)
           <> Ok VectorDB.empty_result).
Proof.
  split; [|split; [reflexivity|]].
  - intros X self query n w qe e He Hq. by rewrite search_unfold, He, Hq.
  - intros query n. split; [reflexivity|].
    rewrite reference_search_refused. split; [reflexivity|discriminate].
Qed.

Lemma search_on_empty_collection_raises_witness :
  VectorDB.search (Reference.vdb []) Sample.question 5 Sample.opened
  = (Raise (ValueError (Reference.include_message "ids")), Sample.opened).
Proof.
  apply (proj1 search_on_empty_collection_raises (Reference.services [])
           (Reference.vdb []) Sample.question 5%Z Sample.opened
           [Reference.embed Sample.question]); reflexivity.
Defined.

(** C1, where the code departs from the claim: [invoke] never reaches the
    chat model. Its [search] asks the store to include [ids], the store
    refuses with [ValueError] and [invoke] raises it, whatever the
    question and the stored chunks. And for every store: an answer that
    holds one list of texts per query embedding, which is the shape of the
    store's answers, makes the join of the [documents] entry raise
    [TypeError], because [invoke] joins the outer list. *)
Theorem invoke_raises_before_the_chat_model :
  (forall (input : string) (n : Z) (w : @world (Reference.services [])),
      RAGAssistant.invoke (Reference.assistant []) input n w
      = (Raise (ValueError (Reference.include_message "ids")), w))
  /\ (forall (X : Externals) (self : @RAGAssistant.t X) (input : string)
             (n : Z) (w : @world X) (r : list (string * pyval))
             (hits rest : list pyval),
        fst (VectorDB.search (RAGAssistant.vector_db self) input n w) = Ok r ->
        dict_get r "documents" (PList []) = PList (PList hits :: rest) ->
        RAGAssistant.invoke self input n w
        = (Raise (TypeError
                    "sequence item 0: expected str instance, list found"),
           w)).
Proof.
  split.
  - intros input n w. unfold RAGAssistant.invoke, bind at 1.
    by rewrite reference_search_refused.
  - intros X self input n w r hits rest Hs Hd.
    by apply (invoke_batched_documents self input n w r hits rest).
Qed.

Lemma invoke_raises_before_the_chat_model_witness :
  @RAGAssistant.invoke (Reference.services []) (Reference.assistant [])
    Sample.question 3 Sample.opened
  = (Raise (ValueError (Reference.include_message "ids")), Sample.opened)
  /\ fst (@RAGAssistant.invoke (Scripted.services (Ok Scripted.batched))
            (Scripted.assistant (Ok Scripted.batched)) Sample.question 3
            (Scripted.start (Ok Scripted.batched)))
     = Raise (TypeError "sequence item 0: expected str instance, list found").
Proof.
  destruct invoke_raises_before_the_chat_model as [Hrefused Hjoin].
  split; [apply Hrefused|].
  rewrite (Hjoin (Scripted.services (Ok Scripted.batched))
             (Scripted.assistant (Ok Scripted.batched)) Sample.question 3%Z
             (Scripted.start (Ok Scripted.batched)) Scripted.batched
             [PStr "The sky is blue."] []); reflexivity.
Defined.

(** C7, where the code departs from the claim: the store keeps the round
    trip, the code loses it. Asked for documents, metadatas and distances,
    a collection that holds one record answers a query by that record's
    own embedding with the record, at distance 0. [add_documents] stores
    the sky chunk with the embedding of its text, but [search] for that
    same text raises the store's [ValueError] for the item [ids] instead
    of returning the chunk. *)
Theorem round_trip_is_lost_in_search :
  (forall (r : Reference.row) (k : Z),
      (1 <= k)%Z ->
      Reference.ref_query {[ "rag_documents" := [r] ]} "rag_documents"
        [Reference.r_embedding r] k ["documents"; "metadatas"; "distances"]
      = Ok [("ids", PList [PList [PStr (Reference.r_id r)]]);
            ("embeddings", PNone);
            ("documents", PList [PList [PStr (Reference.r_document r)]]);
            ("uris", PNone);
            ("data", PNone);
            ("metadatas", PList [PList [Reference.r_metadata r]]);
            ("distances", PList [PList [PFloat (inject_Z 0)]])])
  /\ VectorDB.add_documents (Reference.vdb []) [Sample.sky_document]
       Sample.opened
     = (Ok tt, Sample.indexed)
  /\ w_db Sample.indexed = {[ "rag_documents" := [Sample.sky_row] ]}
  /\ (forall n : Z,
        VectorDB.search (Reference.vdb []) Sample.sky n Sample.indexed
        = (Raise (ValueError (Reference.include_message "ids")),
           Sample.indexed)).
Proof.
  split; [|split; [|split]].
  - intros r k Hk. unfold Reference.ref_query. cbn [Reference.refused_include].
    change (Reference.refused_include ["documents"; "metadatas"; "distances"])
      with (@None string).
    rewrite lookup_singleton_eq. cbn [default map zip zip_with].
    unfold Reference.nearest. cbn [fold_right Reference.insert_by].
    destruct (Z.to_nat k) as [|m] eqn:Hm; [lia|].
    cbn. rewrite distance_self. by destruct m.
  - vm_compute. exact eq_refl.
  - vm_compute. exact eq_refl.
  - intros n. apply reference_search_refused.
Qed.

Lemma round_trip_is_lost_in_search_witness :
  Reference.ref_query {[ "rag_documents" := [Sample.sky_row] ]}
    "rag_documents" [Reference.embed Sample.sky] 5
    ["documents"; "metadatas"; "distances"]
  = Ok [("ids", PList [PList [PStr "doc_0_chunk_0"]]);
        ("embeddings", PNone);
        ("documents", PList [PList [PStr Sample.sky]]);
        ("uris", PNone);
        ("data", PNone);
        ("metadatas", PList [PList [PDict [("source", PStr "sky.txt")]]]);
        ("distances", PList [PList [PFloat (inject_Z 0)]])].
Proof.
  apply (proj1 round_trip_is_lost_in_search Sample.sky_row 5%Z). lia.
Defined.

(** ** Ingestion and the interactive loop *)

Section Ingestion.
Context `{X : Externals}.

(** A list of texts is not a list of document mappings: the first text has
    no [get], and nothing reaches the splitter or the store. *)
Lemma add_documents_of_texts (self : VectorDB.t) (text : string)
    (texts : list string) (w : world) :
  VectorDB.add_documents self (map PStr (text :: texts)) w
  = (Raise (AttributeError "'str' object has no attribute 'get'"),
     World (w_db w)
       (w_out w ++ [("Processing " +:+ pretty (S (length texts))
                       +:+ " documents...") +:+ nl])
       (w_adds w)).
Proof.
  unfold VectorDB.add_documents. run. by rewrite List.length_map.
Qed.

Lemma interactive_loop_quit (a : RAGAssistant.t) (line : string)
    (rest : list string) (w : world) :
  String.eqb (lower line) "quit" = true ->
  interactive_loop a (line :: rest) w
  = (Ok tt, World (w_db w) (w_out w ++ [input_prompt]) (w_adds w)).
Proof. intros Hq. simpl. run. by rewrite Hq. Qed.

(** Any other line: the class has no attribute [query], so the lookup
    raises before the assistant is called or anything is printed. *)
Lemma interactive_loop_question (a : RAGAssistant.t) (line : string)
    (rest : list string) (w : world) :
  String.eqb (lower line) "quit" = false ->
  interactive_loop a (line :: rest) w
  = (Raise (AttributeError "'RAGAssistant' object has no attribute 'query'"),
     World (w_db w) (w_out w ++ [input_prompt]) (w_adds w)).
Proof. intros Hq. simpl. run. by rewrite Hq. Qed.
End Ingestion.

(** C2, where the code departs from the claim: [main] hands the loaded
    texts themselves to [add_documents], which asks each document for
    [get]. With one text file in the directory the run reports the
    [AttributeError] and stops; the collection stays empty and the store
    never receives a write. *)
Theorem main_stores_nothing_from_loaded_texts :
  let w := snd (main Sample.env_groq_google ["quit"]
                  (Reference.start Sample.one_file)) in
  w_adds w = []
  /\ w_db w = {[ "rag_documents" := [] ]}
  /\ w_out w
     = map (fun s => s +:+ nl)
         ["Initializing RAG Assistant...";
          "Using Groq model: llama-3.1-8b-instant";
          "Loading embedding model: sentence-transformers/all-MiniLM-L6-v2";
          "Vector database initialized with collection: rag_documents";
          "RAG Assistant initialized successfully";
          nl +:+ "Loading documents...";
          "Loaded 1 sample documents";
          "Processing 1 documents...";
          "Error running RAG assistant: 'str' object has no attribute 'get'";
          "Make sure you have set up your .env file with at least one API key:";
          "- OPENAI_API_KEY (OpenAI GPT models)";
          "- GROQ_API_KEY (Groq Llama models)";
          "- GOOGLE_API_KEY (Google Gemini models)"].
Proof. repeat split; vm_compute; reflexivity. Qed.

(** C3, where the code departs from the claim: on an empty directory the
    loop is reached; the line that is not [quit] is never answered, because
    [assistant.query] raises [AttributeError], the handler of [main] prints
    the error and the run ends without reading the next line. *)
Theorem main_question_is_not_answered :
  w_out (snd (main Sample.env_groq_google [Sample.question; "quit"]
                (Reference.start [])))
  = map (fun s => s +:+ nl)
      ["Initializing RAG Assistant...";
       "Using Groq model: llama-3.1-8b-instant";
       "Loading embedding model: sentence-transformers/all-MiniLM-L6-v2";
       "Vector database initialized with collection: rag_documents";
       "RAG Assistant initialized successfully";
       nl +:+ "Loading documents...";
       "Loaded 0 sample documents";
       "Processing 0 documents...";
       "Documents added to vector database"]
    ++ [input_prompt]
    ++ map (fun s => s +:+ nl)
         ["Error running RAG assistant: 'RAGAssistant' object has no attribute 'query'";
          "Make sure you have set up your .env file with at least one API key:";
          "- OPENAI_API_KEY (OpenAI GPT models)";
          "- GROQ_API_KEY (Groq Llama models)";
          "- GOOGLE_API_KEY (Google Gemini models)"].
Proof. vm_compute. reflexivity. Qed.

(** ** Loading *)

Section Loading.
Context `{X : Externals}.

Lemma load_loop_step (data_dir f : string) (names results : list string)
    (w : world) :
  load_loop data_dir (f :: names) results w
  = load_loop data_dir names
      (results ++ option_list (loaded_text (file_outcome data_dir f)))
      (World (w_db w)
         (w_out w ++ printed (diagnostic f (file_outcome data_dir f)))
         (w_adds w)).
Proof.
  cbn [load_loop]. unfold file_outcome, load_file, printed.
  destruct (isfile (path_join data_dir f)); cbn [negb];
    [|cbn; rewrite !app_nil_r; by destruct w].
  unfold bind at 1.
  destruct (String.eqb (extension f) "txt").
  { run. destruct (read_text _) as [t|e]; cbn;
      rewrite ?app_nil_r; by destruct w. }
  destruct (String.eqb (extension f) "pdf").
  { run. destruct (fitz_open _) as [pages|e]; cbn;
      [destruct (read_pages pages) as [t|e]; cbn|];
      rewrite ?app_nil_r; by destruct w. }
  destruct (String.eqb (extension f) "doc" || String.eqb (extension f) "docx").
  { run. destruct (docx_paragraphs _) as [ps|e]; cbn;
      rewrite ?app_nil_r; by destruct w. }
  run. by rewrite app_nil_r.
Qed.

Lemma load_loop_outcomes (data_dir : string) (names results : list string)
    (w : world) :
  load_loop data_dir names results w
  = (Ok (results ++ loaded_texts data_dir names),
     World (w_db w) (w_out w ++ printed (diagnostics data_dir names))
       (w_adds w)).
Proof.
  revert results w.
  induction names as [|f names IH]; intros results w.
  { cbn. unfold ret. rewrite !app_nil_r. by destruct w. }
  rewrite load_loop_step, IH. cbn [w_db w_out w_adds].
  unfold loaded_texts, diagnostics, printed. cbn [omap list_omap flat_map].
  rewrite map_app, <- !app_assoc.
  by destruct (loaded_text (file_outcome data_dir f)).
Qed.

Lemma loaded_texts_length (data_dir : string) (names : list string) :
  length (loaded_texts data_dir names)
  = length (List.filter (fun f => is_loaded (file_outcome data_dir f)) names).
Proof.
  unfold loaded_texts.
  induction names as [|f names IH]; simpl; [done|].
  destruct (file_outcome data_dir f); simpl;
    first [exact IH | exact (f_equal S IH)].
Qed.

(** C5: once the directory can be listed, [load_documents] returns: a file
    whose reader raises is reported and skipped, a file of another
    extension is skipped with its diagnostic, and the result holds the
    texts of exactly the files that load, one each, in directory order. *)
Theorem load_documents_skips_bad_files (data_dir : string)
    (names : list string) (w : world) :
  listdir data_dir = Ok names ->
  load_documents data_dir w
  = (Ok (loaded_texts data_dir names),
     World (w_db w) (w_out w ++ printed (diagnostics data_dir names))
       (w_adds w))
  /\ length (loaded_texts data_dir names)
     = length (List.filter (fun f => is_loaded (file_outcome data_dir f))
                 names)
  /\ (forall f, In f names ->
        match file_outcome data_dir f with
        | Unsupported =>
            In ("Unsupported file type skipped: " +:+ f)
              (diagnostics data_dir names)
        | Failed e =>
            In ("Error loading " +:+ f +:+ ": " +:+ exn_msg e)
              (diagnostics data_dir names)
        | Loaded text => In text (loaded_texts data_dir names)
        | NotAFile => True
        end).
Proof.
  intros Hdir. split; [|split].
  - unfold load_documents, bind, lift. rewrite Hdir.
    by rewrite load_loop_outcomes.
  - apply loaded_texts_length.
  - intros f Hf.
    destruct (file_outcome data_dir f) as [| |e|text] eqn:Ho; [done|..].
    + apply in_flat_map. exists f. rewrite Ho. simpl. auto.
    + apply in_flat_map. exists f. rewrite Ho. simpl. auto.
    + apply list_elem_of_In, list_elem_of_omap. exists f.
      rewrite Ho. split; [by apply list_elem_of_In|done].
Qed.
End Loading.

Lemma load_documents_skips_bad_files_witness :
  @load_documents (Reference.services Sample.mixed) "data"
    (Reference.start Sample.mixed)
  = (Ok [Sample.sky; "Dear all," +:+ nl +:+ "the sky is blue."],
     @World (Reference.services Sample.mixed) ∅
       (printed ["Error loading broken.pdf: Failed to open file";
                 "Unsupported file type skipped: notes.md"])
       []).
Proof.
  pose proof (@load_documents_skips_bad_files (Reference.services Sample.mixed)
                "data" (map fst Sample.mixed)
                (Reference.start Sample.mixed) eq_refl) as [H _].
  rewrite H. vm_compute. reflexivity.
Defined.

(** ** Writing to the store *)

Section Store.
Context `{X : Externals}.

(** One turn of the loop over the documents. *)
Lemma add_loop_step (self : VectorDB.t) (i : nat) (doc : pyval)
    (rest : list pyval) (w : world) :
  VectorDB.add_loop self i (doc :: rest) w
  = match document_chunks doc with
    | Raise e => (Raise e, w)
    | Ok (metadata, chunks) =>
        let out :=
          w_out w ++ [("Document " +:+ pretty i +:+ ": Split into "
                         +:+ pretty (length chunks) +:+ " chunks") +:+ nl] in
        match encode (VectorDB.embedding_model self) chunks with
        | Raise e => (Raise e, World (w_db w) out (w_adds w))
        | Ok embeddings =>
            let call :=
              AddCall (VectorDB.collection_name self) chunks
                (replicate (length chunks) metadata) embeddings
                (VectorDB.chunk_ids i (length chunks)) in
            match collection_add (w_db w) (VectorDB.collection_name self)
                    chunks (replicate (length chunks) metadata) embeddings
                    (VectorDB.chunk_ids i (length chunks)) with
            | (Ok _, d) =>
                VectorDB.add_loop self (S i) rest
                  (World d out (w_adds w ++ [call]))
            | (Raise e, d) => (Raise e, World d out (w_adds w ++ [call]))
            end
        end
    end.
Proof.
  cbn [VectorDB.add_loop]. unfold document_chunks, VectorDB.chunk_text.
  unfold bind at 1, lift.
  destruct (py_get doc "content" (PStr "")) as [content|e]; [|done].
  unfold bind at 1.
  destruct (py_get doc "metadata" (PDict [])) as [metadata|e]; [|done].
  unfold bind at 1 2, lift.
  destruct (new_splitter 500 50) as [sp|e]; [|done].
  unfold bind at 1.
  destruct (split_text sp content) as [chunks|e]; [|done].
  unfold ret at 1. unfold bind at 1. unfold print, write. cbn match.
  unfold bind at 1.
  destruct (encode (VectorDB.embedding_model self) chunks) as [embs|e];
    [|done].
  unfold bind at 1, VectorDB.add_to_collection. cbn [w_db w_out w_adds].
  by destruct (collection_add _ _ _ _ _ _) as [[[]|e] d].
Qed.

Lemma add_documents_unfold (self : VectorDB.t) (docs : list pyval)
    (w : world) :
  VectorDB.add_documents self docs w
  = match VectorDB.add_loop self 0 docs
            (World (w_db w)
               (w_out w ++ [("Processing " +:+ pretty (length docs)
                               +:+ " documents...") +:+ nl])
               (w_adds w)) with
    | (Ok _, w1) =>
        (Ok tt,
         World (w_db w1)
           (w_out w1 ++ ["Documents added to vector database" +:+ nl])
           (w_adds w1))
    | (Raise e, w1) => (Raise e, w1)
    end.
Proof.
  unfold VectorDB.add_documents. run.
  by destruct (VectorDB.add_loop _ _ _ _) as [[[]|e] w1].
Qed.

(** The store receives one batch of identifiers per document, numbered from
    [i] in steps of one, until the loop ends or raises. *)
Lemma add_loop_trace (self : VectorDB.t) (docs : list pyval) (i : nat)
    (w : world) :
  exists (ns : list nat) (L : list add_call),
    length ns <= length docs
    /\ w_adds (snd (VectorDB.add_loop self i docs w)) = w_adds w ++ L
    /\ map ac_ids L = zip_with VectorDB.chunk_ids (seq i (length ns)) ns.
Proof.
  revert i w. induction docs as [|doc rest IH]; intros i w.
  { exists [], []. cbn. by rewrite app_nil_r. }
  rewrite add_loop_step.
  destruct (document_chunks doc) as [[metadata chunks]|e];
    [|exists [], []; cbn; rewrite app_nil_r; split; [lia|done]].
  cbv zeta.
  destruct (encode _ chunks) as [embs|e];
    [|exists [], []; cbn; rewrite app_nil_r; split; [lia|done]].
  destruct (collection_add _ _ _ _ _ _) as [[[]|e] d].
  - match goal with
    | |- context [VectorDB.add_loop self (S i) rest ?w1] =>
        destruct (IH (S i) w1) as (ns & L & Hlen & Hadds & Hids)
    end.
    exists (length chunks :: ns), (AddCall (VectorDB.collection_name self)
      chunks (replicate (length chunks) metadata) embs
      (VectorDB.chunk_ids i (length chunks)) :: L).
    split; [cbn; lia|]. split.
    + rewrite Hadds. cbn. by rewrite <- app_assoc.
    + cbn. by rewrite Hids.
  - exists [length chunks], [AddCall (VectorDB.collection_name self)
      chunks (replicate (length chunks) metadata) embs
      (VectorDB.chunk_ids i (length chunks))].
    split; [cbn; lia|]. split; reflexivity.
Qed.

(** Two runs of the loop over the same documents that both complete send
    the same writes, whatever the store held before. *)
Lemma add_loop_replay (self : VectorDB.t) (docs : list pyval) (i : nat)
    (w w1 w' w1' : world) :
  VectorDB.add_loop self i docs w = (Ok tt, w1) ->
  VectorDB.add_loop self i docs w' = (Ok tt, w1') ->
  exists L, w_adds w1 = w_adds w ++ L /\ w_adds w1' = w_adds w' ++ L.
Proof.
  revert i w w'. induction docs as [|doc rest IH]; intros i w w'.
  { cbn. unfold ret. intros [= <-] [= <-]. exists [].
    by rewrite !app_nil_r. }
  rewrite !add_loop_step.
  destruct (document_chunks doc) as [[metadata chunks]|e]; [|discriminate].
  cbv zeta.
  destruct (encode _ chunks) as [embs|e]; [|discriminate].
  destruct (collection_add (w_db w) _ _ _ _ _) as [[[]|e] d]; [|discriminate].
  destruct (collection_add (w_db w') _ _ _ _ _) as [[[]|e'] d'];
    [|discriminate].
  intros H1 H2. destruct (IH _ _ _ H1 H2) as (L & HL1 & HL2).
  cbn in HL1, HL2. eexists (_ :: L).
  rewrite HL1, HL2, <- !app_assoc. split; reflexivity.
Qed.
End Store.

(** ** Chunk identifiers *)

Lemma pretty_N_go_underscore (x : N) (s : string) :
  occurs "_" (pretty_N_go x s) = occurs "_" s.
Proof.
  revert s. induction (N.lt_wf_0 x) as [x _ IH]; intros s.
  assert (x = 0 \/ 0 < x)%N as [->|Hpos] by lia.
  - by rewrite pretty_N_go_0.
  - rewrite pretty_N_go_step by done.
    rewrite IH by (by apply N.div_lt).
    cbn [occurs]. unfold pretty_N_char. by repeat case_match.
Qed.

Lemma pretty_nat_underscore (n : nat) : occurs "_" (pretty n) = false.
Proof.
  unfold pretty, pretty_nat, pretty, pretty_N.
  case_decide; [reflexivity|]. by rewrite pretty_N_go_underscore.
Qed.

(** Two texts free of underscores, each followed by an underscore, end at
    the same place. *)
Lemma split_at_underscore (a a' r r' : string) :
  occurs "_" a = false -> occurs "_" a' = false ->
  a +:+ String "_" r = a' +:+ String "_" r' -> a = a' /\ r = r'.
Proof.
  revert a'. induction a as [|c a IH]; intros [|c' a'] Ha Ha' Heq;
    cbn in *.
  - by injection Heq.
  - injection Heq as <- _. by rewrite Ascii.eqb_refl in Ha'.
  - injection Heq as -> _. by rewrite Ascii.eqb_refl in Ha.
  - injection Heq as <- Heq.
    apply orb_false_iff in Ha as [_ Ha]. apply orb_false_iff in Ha' as [_ Ha'].
    destruct (IH a' Ha Ha' Heq) as [-> ->]. done.
Qed.

Lemma chunk_id_inj (i j i' j' : nat) :
  "doc_" +:+ pretty i +:+ "_chunk_" +:+ pretty j
  = "doc_" +:+ pretty i' +:+ "_chunk_" +:+ pretty j' ->
  i = i' /\ j = j'.
Proof.
  intros Heq. cbn in Heq. injection Heq as Heq.
  apply split_at_underscore in Heq as [Hi Hj];
    [|apply pretty_nat_underscore..].
  cbn in Hj. injection Hj as Hj.
  split; by apply (inj pretty).
Qed.

Lemma chunk_ids_elem (i n : nat) (x : string) :
  x ∈ VectorDB.chunk_ids i n ->
  exists j : nat, x = "doc_" +:+ pretty i +:+ "_chunk_" +:+ pretty j.
Proof.
  unfold VectorDB.chunk_ids. intros Hx.
  apply list_elem_of_In, in_map_iff in Hx as (j & <- & _). by exists j.
Qed.

Lemma chunk_ids_NoDup (i n : nat) : NoDup (VectorDB.chunk_ids i n).
Proof.
  unfold VectorDB.chunk_ids.
  change (NoDup ((fun j : nat =>
                    "doc_" +:+ pretty i +:+ "_chunk_" +:+ pretty j)
                   <$> seq 0 n)).
  apply NoDup_fmap_2_strong; [|apply NoDup_seq].
  intros j j' _ _ Heq. by apply chunk_id_inj in Heq as [_ ?].
Qed.

Lemma numbered_elem (ns : list nat) (i : nat) (x : string) :
  x ∈ concat (zip_with VectorDB.chunk_ids (seq i (length ns)) ns) ->
  exists i' j : nat, i <= i' /\ x = "doc_" +:+ pretty i' +:+ "_chunk_" +:+ pretty j.
Proof.
  revert i. induction ns as [|n ns IH]; intros i; cbn.
  { by intros ?%elem_of_nil. }
  intros [Hx|Hx]%elem_of_app.
  - apply chunk_ids_elem in Hx as [j ->]. exists i, j. split; [lia|done].
  - apply IH in Hx as (i' & j & Hle & ->). exists i', j. split; [lia|done].
Qed.

(** Batches numbered by consecutive document indices share no identifier. *)
Lemma numbered_NoDup (ns : list nat) (i : nat) :
  NoDup (concat (zip_with VectorDB.chunk_ids (seq i (length ns)) ns)).
Proof.
  revert i. induction ns as [|n ns IH]; intros i; cbn.
  { constructor. }
  apply NoDup_app. split; [apply chunk_ids_NoDup|]. split; [|apply IH].
  intros x Hx Hx'.
  apply chunk_ids_elem in Hx as [j ->].
  apply numbered_elem in Hx' as (i' & j' & Hle & Heq).
  apply chunk_id_inj in Heq as [-> _]. lia.
Qed.

Section Identifiers.
Context `{X : Externals}.

Lemma add_documents_adds (self : VectorDB.t) (docs : list pyval) (w : world) :
  exists (ns : list nat) (L : list add_call),
    length ns <= length docs
    /\ w_adds (snd (VectorDB.add_documents self docs w)) = w_adds w ++ L
    /\ map ac_ids L = zip_with VectorDB.chunk_ids (seq 0 (length ns)) ns.
Proof.
  rewrite add_documents_unfold.
  match goal with
  | |- context [VectorDB.add_loop self 0 docs ?w0] =>
      destruct (add_loop_trace self docs 0 w0) as (ns & L & Hlen & Hadds & Hids);
      destruct (VectorDB.add_loop self 0 docs w0) as [[[]|e] w1]
  end; exists ns, L; cbn in *; auto.
Qed.

Lemma add_documents_replay (self : VectorDB.t) (docs : list pyval)
    (w w1 w' w1' : world) :
  VectorDB.add_documents self docs w = (Ok tt, w1) ->
  VectorDB.add_documents self docs w' = (Ok tt, w1') ->
  exists L, w_adds w1 = w_adds w ++ L /\ w_adds w1' = w_adds w' ++ L.
Proof.
  rewrite !add_documents_unfold.
  destruct (VectorDB.add_loop self 0 docs _) as [[[]|e] v] eqn:H1;
    [|discriminate].
  destruct (VectorDB.add_loop self 0 docs (World (w_db w') _ _))
    as [[[]|e'] v'] eqn:H2; [|discriminate].
  intros [= <-] [= <-].
  destruct (add_loop_replay _ _ _ _ _ _ _ H1 H2) as (L & HL1 & HL2).
  exists L. cbn in *. auto.
Qed.

Lemma new_ids_app (w w' : world) (L : list add_call) :
  w_adds w' = w_adds w ++ L -> new_ids w w' = concat (map ac_ids L).
Proof. unfold new_ids. intros ->. by rewrite drop_app_length. Qed.

(** C9: in one call of [add_documents] the store receives the batches
    [doc_0_chunk_*], [doc_1_chunk_*], ... in this order (fewer when the
    call raises), and no identifier twice. The numbering does not look at
    the store: a second completed call over the same documents sends the
    same identifiers again, so across the two calls every identifier
    occurs twice. *)
Theorem chunk_ids_distinct_within_a_call (self : VectorDB.t)
    (docs : list pyval) (w : world) :
  (exists ns : list nat,
      length ns <= length docs
      /\ new_ids w (snd (VectorDB.add_documents self docs w))
         = concat (zip_with VectorDB.chunk_ids (seq 0 (length ns)) ns))
  /\ NoDup (new_ids w (snd (VectorDB.add_documents self docs w)))
  /\ (forall w1 w2,
        VectorDB.add_documents self docs w = (Ok tt, w1) ->
        VectorDB.add_documents self docs w1 = (Ok tt, w2) ->
        new_ids w1 w2 = new_ids w w1
        /\ new_ids w w2 = new_ids w w1 ++ new_ids w w1
        /\ (new_ids w w1 <> [] -> ~ NoDup (new_ids w w2))).
Proof.
  destruct (add_documents_adds self docs w) as (ns & L & Hlen & Hadds & Hids).
  rewrite (new_ids_app _ _ _ Hadds), Hids.
  split; [by exists ns|]. split; [apply numbered_NoDup|].
  intros w1 w2 H1 H2.
  destruct (add_documents_replay _ _ _ _ _ _ H1 H2) as (K & HK1 & HK2).
  assert (Hall : w_adds w2 = w_adds w ++ (K ++ K))
    by (by rewrite HK2, HK1, <- app_assoc).
  rewrite (new_ids_app _ _ _ HK1), (new_ids_app _ _ _ HK2),
    (new_ids_app _ _ _ Hall), map_app, concat_app.
  split; [done|]. split; [done|].
  intros Hne Hnd. apply NoDup_app in Hnd as (_ & Hdisj & _).
  destruct (concat (map ac_ids K)) as [|x l]; [done|].
  apply (Hdisj x); left.
Qed.

Lemma fill_defaults_chunks (doc : pyval) :
  document_chunks (fill_defaults doc) = document_chunks doc.
Proof.
  assert (Hmiss : forall d k v, dict_has d k = false -> dict_get d k v = v).
  { intros d k v. induction d as [|[k' v'] d IH]; cbn; [done|].
    destruct (String.eqb k' k); [done|]. apply IH. }
  destruct doc as [| | | | | |d]; try reflexivity.
  unfold document_chunks, fill_defaults, py_get.
  destruct (dict_has d "content") eqn:Hc, (dict_has d "metadata") eqn:Hm;
    cbn; rewrite ?(Hmiss _ _ _ Hc), ?(Hmiss _ _ _ Hm); reflexivity.
Qed.

Lemma fill_defaults_loop (self : VectorDB.t) (docs : list pyval) (i : nat)
    (w : world) :
  VectorDB.add_loop self i (map fill_defaults docs) w
  = VectorDB.add_loop self i docs w.
Proof.
  revert i w. induction docs as [|doc rest IH]; intros i w; [done|].
  cbn [map]. rewrite !add_loop_step, fill_defaults_chunks.
  destruct (document_chunks doc) as [[metadata chunks]|e]; [|done].
  cbv zeta. destruct (encode _ chunks) as [embs|e]; [|done].
  destruct (collection_add _ _ _ _ _ _) as [[[]|e] d]; [|done].
  apply IH.
Qed.

(** C10: a document mapping without ["content"] is handled as if it held
    the empty string, one without ["metadata"] as if it held the empty
    mapping: writing the defaults out changes nothing in what
    [add_documents] does, the two lookups return and do not raise, and
    with a splitter that finds no chunk in the empty string the document
    contributes zero chunks. *)
Theorem missing_keys_take_defaults (self : VectorDB.t) (docs : list pyval)
    (w : world) :
  VectorDB.add_documents self (map fill_defaults docs) w
  = VectorDB.add_documents self docs w
  /\ (forall d, dict_has d "content" = false ->
        py_get (PDict d) "content" (PStr "") = Ok (PStr ""))
  /\ (forall d, dict_has d "metadata" = false ->
        py_get (PDict d) "metadata" (PDict []) = Ok (PDict []))
  /\ (forall d sp, dict_has d "content" = false ->
        new_splitter 500 50 = Ok sp -> split_text sp (PStr "") = Ok [] ->
        document_chunks (PDict d) = Ok (dict_get d "metadata" (PDict []), [])).
Proof.
  assert (Hmiss : forall d k v, dict_has d k = false -> dict_get d k v = v).
  { intros d k v. induction d as [|[k' v'] d IH]; cbn; [done|].
    destruct (String.eqb k' k); [done|]. apply IH. }
  split; [|split; [|split]].
  - rewrite !add_documents_unfold, List.length_map, fill_defaults_loop. done.
  - intros d Hd. cbn. by rewrite Hmiss.
  - intros d Hd. cbn. by rewrite Hmiss.
  - intros d sp Hd Hsp Hsplit. unfold document_chunks. cbn.
    by rewrite (Hmiss _ _ _ Hd), Hsp, Hsplit.
Qed.
End Identifiers.

Lemma chunk_ids_distinct_within_a_call_witness :
  new_ids Sample.opened Sample.indexed = ["doc_0_chunk_0"]
  /\ ~ NoDup (new_ids Sample.opened Sample.indexed_twice).
Proof.
  pose proof (@chunk_ids_distinct_within_a_call (Reference.services [])
                (Reference.vdb []) [Sample.sky_document]
                Sample.opened) as (_ & _ & H).
  destruct (H Sample.indexed Sample.indexed_twice) as (_ & _ & Hdup);
    [vm_compute; exact eq_refl ..|].
  split; [vm_compute; exact eq_refl|].
  apply Hdup. vm_compute. discriminate.
Defined.

Lemma missing_keys_take_defaults_witness :
  @document_chunks (Reference.services []) Sample.untitled = Ok (PDict [], [])
  /\ w_adds (snd (VectorDB.add_documents (Reference.vdb []) [Sample.untitled]
                    Sample.opened))
     = [@AddCall (Reference.services []) "rag_documents" [] [] [] []].
Proof.
  pose proof (@missing_keys_take_defaults (Reference.services [])
                (Reference.vdb []) [Sample.untitled] Sample.opened)
    as (Hfill & _ & _ & Hzero).
  split.
  - apply (Hzero [("title", PStr "untitled")] (500%Z, 50%Z));
      vm_compute; reflexivity.
  - rewrite <- Hfill. vm_compute. reflexivity.
Defined.

(** * Further properties of the code *)

(** ** File extensions *)

Lemma app_String (c : ascii) (a b : string) :
  String c a +:+ b = String c (a +:+ b).
Proof. reflexivity. Qed.

Lemma app_empty (b : string) : EmptyString +:+ b = b.
Proof. reflexivity. Qed.

Lemma lower_app (a b : string) : lower (a +:+ b) = lower a +:+ lower b.
Proof.
  induction a as [|c a IH]; [done|].
  cbn [lower]. rewrite !app_String. cbn [lower]. by rewrite IH.
Qed.

Lemma lower_ascii_dot (c : ascii) :
  Ascii.eqb (lower_ascii c) "." = Ascii.eqb c ".".
Proof. destruct c as [[] [] [] [] [] [] [] []]; reflexivity. Qed.

Lemma occurs_dot_lower (s : string) : occurs "." (lower s) = occurs "." s.
Proof.
  induction s as [|c s IH]; cbn; [done|]. by rewrite lower_ascii_dot, IH.
Qed.

Lemma split_char_whole (sep : ascii) (s : string) :
  occurs sep s = false -> split_char sep s = [s].
Proof.
  induction s as [|c s IH]; cbn; [done|].
  intros [Hc Hs]%orb_false_iff. rewrite Hc, (IH Hs). done.
Qed.

(** Splitting after a separator: the pieces before it, then the pieces of
    the rest. *)
Lemma split_char_app (sep : ascii) (a b : string) :
  exists p ps,
    split_char sep (a +:+ String sep b) = (p :: ps) ++ split_char sep b.
Proof.
  induction a as [|c a (p & ps & IH)];
    rewrite ?app_empty, ?app_String; cbn [split_char].
  - rewrite Ascii.eqb_refl. by exists EmptyString, [].
  - rewrite IH. cbn [app]. destruct (Ascii.eqb c sep).
    + by exists EmptyString, (p :: ps).
    + by exists (String c p), ps.
Qed.

Lemma last_after (l1 l2 : list string) (d : string) :
  l2 <> [] -> List.last (l1 ++ l2) d = List.last l2 d.
Proof.
  intros Hne. induction l1 as [|x l1 IH]; [done|].
  cbn [app List.last]. rewrite IH.
  destruct (l1 ++ l2) eqn:Happ; [|done].
  by apply app_eq_nil in Happ as [_ ?].
Qed.

(** X1: for a file name in ASCII, the extension that [load_documents]
    dispatches on is what follows the last dot of the name, with the
    letters A to Z in lower case; a name without a dot is its own
    extension, so a file called [TXT] is read as text. *)
Theorem extension_is_lowercase_last_segment (stem ext : string) :
  ascii_only stem = true -> ascii_only ext = true ->
  occurs "." ext = false ->
  extension (stem +:+ "." +:+ ext) = lower ext
  /\ extension ext = lower ext.
Proof.
  intros _ _ Hdot. unfold extension.
  assert (Hlow : split_char "." (lower ext) = [lower ext])
    by (apply split_char_whole; by rewrite occurs_dot_lower).
  split; [|by rewrite Hlow].
  rewrite lower_app. change (lower ("." +:+ ext)) with (String "." (lower ext)).
  destruct (split_char_app "." (lower stem) (lower ext)) as (p & ps & ->).
  rewrite last_after, Hlow; [done|]. by rewrite Hlow.
Qed.

Lemma extension_is_lowercase_last_segment_witness :
  extension "Annual.Report.PDF" = "pdf" /\ extension "TXT" = "txt".
Proof.
  split.
  - apply (proj1 (extension_is_lowercase_last_segment "Annual.Report" "PDF"
                    eq_refl eq_refl eq_refl)).
  - apply (proj2 (extension_is_lowercase_last_segment "" "TXT"
                    eq_refl eq_refl eq_refl)).
Defined.

(** ** Strings, once more *)

Lemma string_app_assoc (a b c : string) : a +:+ b +:+ c = (a +:+ b) +:+ c.
Proof.
  induction a as [|x a IH]; [done|]. rewrite !app_String. by rewrite IH.
Qed.

(** ** Chunk identifiers, once more *)

(** X3: the identifiers of one document are [n] in number, the one at
    position [j] names the document index and [j], and an identifier
    determines both indices. *)
Theorem chunk_ids_enumerate_and_decode (i n j : nat) :
  j < n ->
  length (VectorDB.chunk_ids i n) = n
  /\ VectorDB.chunk_ids i n !! j
     = Some ("doc_" +:+ pretty i +:+ "_chunk_" +:+ pretty j)
  /\ (forall i' n' j' : nat,
        VectorDB.chunk_ids i' n' !! j' = VectorDB.chunk_ids i n !! j ->
        i' = i /\ j' = j).
Proof.
  intros Hj. unfold VectorDB.chunk_ids.
  assert (Hat : forall a m b : nat, b < m ->
            map (fun k : nat => "doc_" +:+ pretty a +:+ "_chunk_" +:+ pretty k)
              (seq 0 m) !! b
            = Some ("doc_" +:+ pretty a +:+ "_chunk_" +:+ pretty b)).
  { intros a m b Hb.
    change (((fun k : nat => "doc_" +:+ pretty a +:+ "_chunk_" +:+ pretty k)
               <$> seq 0 m) !! b = Some ("doc_" +:+ pretty a +:+ "_chunk_"
                                           +:+ pretty b)).
    rewrite list_lookup_fmap, lookup_seq_lt by done. reflexivity. }
  split; [by rewrite List.length_map, List.length_seq|].
  split; [by apply Hat|].
  intros i' n' j' Heq. rewrite (Hat i n j Hj) in Heq.
  destruct (decide (j' < n')) as [Hj'|Hj'].
  - rewrite (Hat i' n' j' Hj') in Heq.
    apply chunk_id_inj. by apply (inj Some).
  - rewrite lookup_ge_None_2 in Heq; [done|].
    rewrite List.length_map, List.length_seq. lia.
Qed.

Lemma chunk_ids_enumerate_and_decode_witness :
  VectorDB.chunk_ids 2 12 !! 10 = Some "doc_2_chunk_10".
Proof.
  destruct (chunk_ids_enumerate_and_decode 2 12 10) as (_ & H & _); [lia|].
  rewrite H. vm_compute. reflexivity.
Defined.

(** ** The interactive loop and [main] *)

Lemma lower_ascii_q (c : ascii) :
  lower_ascii c = "q"%char -> (c = "q" \/ c = "Q")%char.
Proof.
  destruct c as [[] [] [] [] [] [] [] []]; vm_compute; intros H;
    first [discriminate H | by left | by right].
Qed.

Lemma lower_ascii_u (c : ascii) :
  lower_ascii c = "u"%char -> (c = "u" \/ c = "U")%char.
Proof.
  destruct c as [[] [] [] [] [] [] [] []]; vm_compute; intros H;
    first [discriminate H | by left | by right].
Qed.

Lemma lower_ascii_i (c : ascii) :
  lower_ascii c = "i"%char -> (c = "i" \/ c = "I")%char.
Proof.
  destruct c as [[] [] [] [] [] [] [] []]; vm_compute; intros H;
    first [discriminate H | by left | by right].
Qed.

Lemma lower_ascii_t (c : ascii) :
  lower_ascii c = "t"%char -> (c = "t" \/ c = "T")%char.
Proof.
  destruct c as [[] [] [] [] [] [] [] []]; vm_compute; intros H;
    first [discriminate H | by left | by right].
Qed.

Lemma lower_is_quit (line : string) :
  String.eqb (lower line) "quit" = true <-> quit_spelling line.
Proof.
  rewrite String.eqb_eq. split.
  - destruct line as [|a [|b [|c [|d [|e rest]]]]]; cbn [lower];
      intros H; try discriminate H.
    injection H as Ha Hb Hc Hd.
    exists a, b, c, d.
    repeat split;
      auto using lower_ascii_q, lower_ascii_u, lower_ascii_i, lower_ascii_t.
  - intros (a & b & c & d & -> & [-> | ->] & [-> | ->] & [-> | ->]
            & [-> | ->]); reflexivity.
Qed.

Section Loop.
Context `{X : Externals}.

Lemma interactive_loop_world (a : RAGAssistant.t) (stdin : list string)
    (w : world) :
  snd (interactive_loop a stdin w)
  = World (w_db w) (w_out w ++ [input_prompt]) (w_adds w).
Proof.
  destruct stdin as [|line rest]; [done|].
  destruct (String.eqb (lower line) "quit") eqn:Hq.
  - by rewrite (interactive_loop_quit a line rest w Hq).
  - by rewrite (interactive_loop_question a line rest w Hq).
Qed.

(** X4: one turn decides the loop. It writes the prompt once and touches
    neither the store nor the trace of writes; at end of input it raises
    [EOFError], on one of the sixteen spellings of [quit] (nothing is
    trimmed) it ends normally, and on any other line it raises
    [AttributeError] for the missing [query] without reading further. *)
Theorem interactive_loop_outcomes (a : RAGAssistant.t) (stdin : list string)
    (w : world) :
  snd (interactive_loop a stdin w)
  = World (w_db w) (w_out w ++ [input_prompt]) (w_adds w)
  /\ match stdin with
     | [] =>
         fst (interactive_loop a stdin w)
         = Raise (EOFError "EOF when reading a line")
     | line :: _ =>
         (quit_spelling line -> fst (interactive_loop a stdin w) = Ok tt)
         /\ (~ quit_spelling line ->
             fst (interactive_loop a stdin w)
             = Raise (AttributeError
                        "'RAGAssistant' object has no attribute 'query'"))
     end.
Proof.
  destruct stdin as [|line rest]; [by split|].
  destruct (String.eqb (lower line) "quit") eqn:Hq.
  - rewrite (interactive_loop_quit a line rest w Hq).
    split; [done|]. split; [done|].
    intros Hn. by apply lower_is_quit in Hq.
  - rewrite (interactive_loop_question a line rest w Hq).
    split; [done|]. split; [|done].
    intros Hs%lower_is_quit. congruence.
Qed.

Lemma no_write_ret {A} (a : A) : sends_no_write (ret a).
Proof. by intros w. Qed.

Lemma no_write_raise {A} (e : exn) : sends_no_write (raise (A := A) e).
Proof. by intros w. Qed.

Lemma no_write_lift {A} (r : result A) : sends_no_write (lift r).
Proof. by intros w. Qed.

Lemma no_write_print (s : string) : sends_no_write (print s).
Proof. by intros w. Qed.

Lemma no_write_bind {A B} (c : M A) (k : A -> M B) :
  sends_no_write c -> (forall a, sends_no_write (k a)) ->
  sends_no_write (bind c k).
Proof.
  intros Hc Hk w. unfold bind. specialize (Hc w).
  destruct (c w) as [[a|e] w1]; cbn in *; [|done].
  by rewrite Hk.
Qed.

Lemma no_write_try {A} (c : M A) (h : exn -> M A) :
  sends_no_write c -> (forall e, sends_no_write (h e)) ->
  sends_no_write (try_catch c h).
Proof.
  intros Hc Hh w. unfold try_catch. specialize (Hc w).
  destruct (c w) as [[a|e] w1]; cbn in *; [done|].
  by rewrite Hh.
Qed.

Lemma no_write_init (env : gmap string string) :
  sends_no_write (RAGAssistant.__init__ env).
Proof.
  unfold RAGAssistant.__init__.
  apply no_write_bind.
  { unfold RAGAssistant._initialize_llm.
    repeat case_match;
      first [apply no_write_raise
            | apply no_write_bind;
              [apply no_write_print | intros; apply no_write_ret]]. }
  intros llm. apply no_write_bind.
  { unfold VectorDB.__init__.
    apply no_write_bind; [apply no_write_print|]. intros _.
    apply no_write_bind; [apply no_write_lift|]. intros m.
    apply no_write_bind.
    { intros w. unfold VectorDB.open_collection.
      by destruct (get_or_create_collection _ _). }
    intros _. apply no_write_bind; [apply no_write_print|].
    intros; apply no_write_ret. }
  intros v. apply no_write_bind; [apply no_write_print|].
  intros; apply no_write_ret.
Qed.

Lemma no_write_load (data_dir : string) :
  sends_no_write (load_documents data_dir).
Proof.
  intros w. unfold load_documents, bind, lift.
  destruct (listdir data_dir) as [names|e]; [|done].
  by rewrite load_loop_outcomes.
Qed.

Lemma no_write_texts (self : VectorDB.t) (texts : list string) :
  sends_no_write (VectorDB.add_documents self (map PStr texts)).
Proof.
  intros w. destruct texts as [|t texts].
  - reflexivity.
  - by rewrite add_documents_of_texts.
Qed.

Lemma no_write_loop (a : RAGAssistant.t) (stdin : list string) :
  sends_no_write (interactive_loop a stdin).
Proof.
  intros w. by rewrite interactive_loop_world.
Qed.

(** X5: [main] never lets an exception out. Whatever the environment, the
    files, the services and the input do, the run ends normally: a failure
    anywhere in start-up, loading, ingestion or the loop is caught by the
    one handler, which only prints. *)
Theorem main_never_raises (env : gmap string string) (stdin : list string)
    (w : world) :
  fst (main env stdin w) = Ok tt.
Proof.
  unfold main, try_catch.
  match goal with
  | |- context [match ?body w with _ => _ end] =>
      destruct (body w) as [[[]|e] w1]
  end; reflexivity.
Qed.

(** X6: [main] never sends a write to the store. With no file loaded
    [add_documents] has nothing to add, with any file loaded it fails on
    the first text, and the loop never reaches the assistant. *)
Theorem main_sends_no_write (env : gmap string string)
    (stdin : list string) :
  sends_no_write (main env stdin).
Proof.
  unfold main. apply no_write_try.
  - apply no_write_bind; [apply no_write_print|]. intros _.
    apply no_write_bind; [apply no_write_init|]. intros a.
    apply no_write_bind; [apply no_write_print|]. intros _.
    apply no_write_bind; [apply no_write_load|]. intros docs.
    apply no_write_bind; [apply no_write_print|]. intros _.
    apply no_write_bind; [apply no_write_texts|]. intros _.
    apply no_write_loop.
  - intros e. repeat (apply no_write_bind; [apply no_write_print|]; intros _).
    apply no_write_print.
Qed.

(** X7: without a credential the run stops at construction: it prints the
    banner, the error with the names of the variables to set and the three
    hints, and does nothing else; the directory is not listed, the store
    is not opened and no input is read. *)
Theorem main_without_credential (env : gmap string string)
    (stdin : list string) (w : world) :
  selected_provider env = None ->
  main env stdin w
  = (Ok tt,
     World (w_db w)
       (w_out w
        ++ printed
             ["Initializing RAG Assistant...";
              "Error running RAG assistant: "
                +:+ RAGAssistant.no_key_message;
              "Make sure you have set up your .env file with at least one API key:";
              "- OPENAI_API_KEY (OpenAI GPT models)";
              "- GROQ_API_KEY (Groq Llama models)";
              "- GOOGLE_API_KEY (Google Gemini models)"])
       (w_adds w)).
Proof.
  intros Hnone. unfold main, try_catch, bind at 1.
  unfold print at 1, write at 1. cbn match.
  unfold bind at 1, RAGAssistant.__init__, bind at 1.
  rewrite (initialize_llm_none env _ Hnone). cbn match.
  run. unfold printed. cbn [map]. rewrite <- !app_assoc. reflexivity.
Qed.
End Loop.

Lemma main_without_credential_witness :
  w_out (snd (@main (Reference.services Sample.one_file) ∅ ["quit"]
                (Reference.start Sample.one_file)))
  = printed
      ["Initializing RAG Assistant...";
       "Error running RAG assistant: " +:+ RAGAssistant.no_key_message;
       "Make sure you have set up your .env file with at least one API key:";
       "- OPENAI_API_KEY (OpenAI GPT models)";
       "- GROQ_API_KEY (Groq Llama models)";
       "- GOOGLE_API_KEY (Google Gemini models)"].
Proof.
  rewrite (@main_without_credential (Reference.services Sample.one_file) ∅
             ["quit"] (Reference.start Sample.one_file));
    [reflexivity | vm_compute; reflexivity].
Defined.

(** ** Writes to the store, once more *)

Section Writes.
Context `{X : Externals}.

(** X8: the loop over the documents composes: running it over
    [docs1 ++ docs2] is running it over [docs1] and, when that completes,
    over [docs2] with the document index carried on. When [docs1] fails
    the error is the result, [docs2] is never looked at, and what was
    written before the failure stays. *)
Theorem add_loop_app (self : VectorDB.t) (docs1 docs2 : list pyval)
    (i : nat) (w : world) :
  VectorDB.add_loop self i (docs1 ++ docs2) w
  = match VectorDB.add_loop self i docs1 w with
    | (Ok _, w1) => VectorDB.add_loop self (i + length docs1) docs2 w1
    | (Raise e, w1) => (Raise e, w1)
    end.
Proof.
  revert i w. induction docs1 as [|doc docs1 IH]; intros i w.
  { cbn. by rewrite Nat.add_0_r. }
  cbn [app length]. rewrite !add_loop_step.
  destruct (document_chunks doc) as [[metadata chunks]|e]; [|done].
  cbv zeta. destruct (encode _ chunks) as [embs|e]; [|done].
  destruct (collection_add _ _ _ _ _ _) as [[[]|e] d]; [|done].
  rewrite IH. by replace (S i + length docs1) with (i + S (length docs1)) by lia.
Qed.

(** What a write says about the document it comes from, the documents
    being numbered from [i]. *)
Lemma add_loop_calls (self : VectorDB.t) (docs : list pyval) (i : nat)
    (w : world) :
  exists L : list add_call,
    w_adds (snd (VectorDB.add_loop self i docs w)) = w_adds w ++ L
    /\ Forall (fun c =>
         exists (k : nat) (doc metadata : pyval),
           docs !! k = Some doc
           /\ document_chunks doc = Ok (metadata, ac_documents c)
           /\ ac_metadatas c
              = replicate (length (ac_documents c)) metadata
           /\ encode (VectorDB.embedding_model self) (ac_documents c)
              = Ok (ac_embeddings c)
           /\ ac_ids c
              = VectorDB.chunk_ids (i + k) (length (ac_documents c))
           /\ ac_collection c = VectorDB.collection_name self) L.
Proof.
  revert i w. induction docs as [|doc rest IH]; intros i w.
  { exists []. cbn. by rewrite app_nil_r. }
  rewrite add_loop_step.
  destruct (document_chunks doc) as [[metadata chunks]|e] eqn:Hdoc;
    [|exists []; cbn; by rewrite app_nil_r].
  cbv zeta.
  destruct (encode _ chunks) as [embs|e] eqn:Henc;
    [|exists []; cbn; by rewrite app_nil_r].
  assert (Hhead : exists (k : nat) (doc0 metadata0 : pyval),
    (doc :: rest) !! k = Some doc0
    /\ document_chunks doc0 = Ok (metadata0, chunks)
    /\ replicate (length chunks) metadata
       = replicate (length chunks) metadata0
    /\ encode (VectorDB.embedding_model self) chunks = Ok embs
    /\ VectorDB.chunk_ids i (length chunks)
       = VectorDB.chunk_ids (i + k) (length chunks)
    /\ VectorDB.collection_name self = VectorDB.collection_name self).
  { exists 0, doc, metadata. by rewrite Nat.add_0_r. }
  destruct (collection_add _ _ _ _ _ _) as [[[]|e] d].
  - match goal with
    | |- context [VectorDB.add_loop self (S i) rest ?w1] =>
        destruct (IH (S i) w1) as (L & Hadds & HL)
    end.
    eexists (_ :: L). split.
    + rewrite Hadds. cbn. by rewrite <- app_assoc.
    + constructor; [exact Hhead|].
      eapply Forall_impl; [exact HL|].
      intros c (k & doc0 & m & Hk & Hc & Hm & He & Hid & Hn).
      exists (S k), doc0, m.
      by replace (i + S k) with (S i + k) by lia.
  - eexists [_]. split; [reflexivity|]. by constructor.
Qed.

(** X9: every write that [add_documents] sends comes from one document of
    the call: it carries that document's chunks in order, the document's
    metadata once per chunk, the embeddings that the model gave for these
    chunks, the identifiers of that document index, and the name of the
    instance's collection; so texts, metadata and identifiers are always
    equal in number. *)
Theorem add_documents_calls_well_formed (self : VectorDB.t)
    (docs : list pyval) (w : world) (c : add_call) :
  c ∈ drop (length (w_adds w))
        (w_adds (snd (VectorDB.add_documents self docs w))) ->
  (exists (k : nat) (doc metadata : pyval),
      docs !! k = Some doc
      /\ document_chunks doc = Ok (metadata, ac_documents c)
      /\ ac_metadatas c = replicate (length (ac_documents c)) metadata
      /\ encode (VectorDB.embedding_model self) (ac_documents c)
         = Ok (ac_embeddings c)
      /\ ac_ids c = VectorDB.chunk_ids k (length (ac_documents c))
      /\ ac_collection c = VectorDB.collection_name self)
  /\ length (ac_metadatas c) = length (ac_documents c)
  /\ length (ac_ids c) = length (ac_documents c).
Proof.
  rewrite add_documents_unfold.
  match goal with
  | |- context [VectorDB.add_loop self 0 docs ?w0] =>
      destruct (add_loop_calls self docs 0 w0) as (L & Hadds & HL);
      destruct (VectorDB.add_loop self 0 docs w0) as [[[]|e] w1]
  end; cbn in Hadds |- *; rewrite Hadds, drop_app_length; intros Hc;
    rewrite Forall_forall in HL;
    destruct (HL c Hc) as (k & doc & m & Hk & Hd & Hm & He & Hid & Hn);
    (split; [by exists k, doc, m|]);
    rewrite Hm, Hid, length_replicate; unfold VectorDB.chunk_ids;
    by rewrite List.length_map, List.length_seq.
Qed.

(** X10: a document that is not a mapping (a text, a list, a number,
    [None]) ends the call with [AttributeError] naming its type, after the
    first line of output and before anything is chunked or written. *)
Theorem add_documents_rejects_non_mapping (self : VectorDB.t) (doc : pyval)
    (rest : list pyval) (w : world) :
  (forall d, doc <> PDict d) ->
  VectorDB.add_documents self (doc :: rest) w
  = (Raise (AttributeError ("'" +:+ py_type_name doc
                              +:+ "' object has no attribute 'get'")),
     World (w_db w)
       (w_out w ++ [("Processing " +:+ pretty (S (length rest))
                       +:+ " documents...") +:+ nl])
       (w_adds w)).
Proof.
  intros Hdoc. rewrite add_documents_unfold, add_loop_step.
  unfold document_chunks.
  destruct doc; try reflexivity. by destruct (Hdoc d).
Qed.
End Writes.

Lemma add_documents_calls_well_formed_witness :
  let c := @AddCall (Reference.services []) "rag_documents" [Sample.sky]
             [PDict []] [Reference.embed Sample.sky] ["doc_0_chunk_0"] in
  length (ac_metadatas c) = length (ac_documents c)
  /\ length (ac_ids c) = length (ac_documents c).
Proof.
  intros c.
  refine (proj2 (@add_documents_calls_well_formed
    (Reference.services []) (Reference.vdb [])
    [PDict [("content", PStr Sample.sky)]] Sample.opened c _)).
  assert (Hl : w_adds (snd (VectorDB.add_documents (Reference.vdb [])
                              [PDict [("content", PStr Sample.sky)]]
                              Sample.opened)) = [c])
    by (vm_compute; exact eq_refl).
  rewrite Hl. apply list_elem_of_here.
Defined.

Lemma add_documents_rejects_non_mapping_witness :
  fst (VectorDB.add_documents (Reference.vdb [])
         [PList [PStr Sample.sky]; Sample.untitled] Sample.opened)
  = Raise (AttributeError "'list' object has no attribute 'get'").
Proof.
  rewrite (@add_documents_rejects_non_mapping (Reference.services [])
             (Reference.vdb []) (PList [PStr Sample.sky]) [Sample.untitled]
             Sample.opened); [reflexivity|discriminate].
Defined.

(** ** The query path, once more *)

Section QueryPath.
Context `{X : Externals}.

(** X12: nothing on the query path catches an error. When the embedding
    model or the store raises, [search] raises the same exception and so
    does [invoke]; no empty result stands in for it. *)
Theorem query_errors_are_not_caught (self : RAGAssistant.t)
    (input : string) (n : Z) (w : world) (e : exn) :
  (encode (VectorDB.embedding_model (RAGAssistant.vector_db self)) [input]
   = Raise e
   \/ exists qe,
        encode (VectorDB.embedding_model (RAGAssistant.vector_db self))
          [input] = Ok qe
        /\ collection_query (w_db w)
             (VectorDB.collection_name (RAGAssistant.vector_db self)) qe n
             VectorDB.result_keys = Raise e) ->
  VectorDB.search (RAGAssistant.vector_db self) input n w = (Raise e, w)
  /\ RAGAssistant.invoke self input n w = (Raise e, w).
Proof.
  intros H.
  assert (Hs : VectorDB.search (RAGAssistant.vector_db self) input n w
               = (Raise e, w)).
  { rewrite search_unfold. destruct H as [->|(qe & -> & ->)]; reflexivity. }
  split; [exact Hs|].
  unfold RAGAssistant.invoke, bind at 1. by rewrite Hs.
Qed.

(** X13: when the store's answer is an empty mapping or lacks one of the
    four keys, [invoke] drops whatever the answer held and asks the chat
    model with an empty context; its reply, or its error, is the result. *)
Theorem invoke_with_unusable_answer (self : RAGAssistant.t)
    (input : string) (n : Z) (w : world) (qe : list vec)
    (r : list (string * pyval)) :
  encode (VectorDB.embedding_model (RAGAssistant.vector_db self)) [input]
  = Ok qe ->
  collection_query (w_db w)
    (VectorDB.collection_name (RAGAssistant.vector_db self)) qe n
    VectorDB.result_keys = Ok r ->
  (r = [] \/ exists k, In k VectorDB.result_keys /\ dict_has r k = false) ->
  RAGAssistant.invoke self input n w
  = (chat (RAGAssistant.llm self) (RAGAssistant.render_prompt "" input), w).
Proof.
  intros He Hq Hr.
  rewrite (invoke_flat_documents self input n w VectorDB.empty_result []);
    [reflexivity| |reflexivity].
  rewrite search_unfold, He, Hq. cbn [fst]. f_equal.
  destruct Hr as [->|(k & Hk & Hmiss)]; [done|].
  destruct (forallb (dict_has r) VectorDB.result_keys) eqn:Hall.
  - rewrite forallb_forall in Hall. apply Hall in Hk. congruence.
  - by rewrite andb_false_r.
Qed.
End QueryPath.

Lemma query_errors_are_not_caught_witness :
  @RAGAssistant.invoke (Scripted.services Scripted.down)
    (Scripted.assistant Scripted.down) Sample.question 3
    (Scripted.start Scripted.down)
  = (Raise (Exn "ConnectionError" "store unavailable"),
     Scripted.start Scripted.down).
Proof.
  apply (@query_errors_are_not_caught (Scripted.services Scripted.down)
           (Scripted.assistant Scripted.down) Sample.question 3
           (Scripted.start Scripted.down)).
  right. eexists. split; reflexivity.
Defined.

Lemma invoke_with_unusable_answer_witness :
  fst (@RAGAssistant.invoke (Scripted.services (Ok Scripted.partial))
         (Scripted.assistant (Ok Scripted.partial)) Sample.question 3
         (Scripted.start (Ok Scripted.partial)))
  = Ok ("[llama-3.1-8b-instant] "
          +:+ RAGAssistant.render_prompt "" Sample.question).
Proof.
  rewrite (@invoke_with_unusable_answer (Scripted.services (Ok Scripted.partial))
             (Scripted.assistant (Ok Scripted.partial)) Sample.question 3
             (Scripted.start (Ok Scripted.partial))
             [Reference.embed Sample.question] Scripted.partial
             eq_refl eq_refl).
  - reflexivity.
  - right. exists "distances". split; [cbn; tauto|reflexivity].
Defined.

(** ** Configuration *)

Lemma truthy_inv (o : option string) :
  truthy o = true -> exists s, o = Some s /\ s <> "".
Proof.
  destruct o as [s|]; [|discriminate]. cbn. intros H. exists s.
  split; [done|]. intros ->. discriminate.
Qed.

Section Configuration.
Context `{X : Externals}.

(** X14: an assistant that [RAGAssistant()] has built works on the
    collection named by [CHROMA_COLLECTION_NAME] and embeds with the model
    named by [EMBEDDING_MODEL]; the defaults [rag_documents] and
    [sentence-transformers/all-MiniLM-L6-v2] stand in only for a variable
    that is unset, and a variable set to the empty text is used as it is.
    The model it holds is the one loaded under that name, and building it
    sends no write to the store. *)
Theorem assistant_configuration (env : gmap string string) (w w' : world)
    (a : RAGAssistant.t) :
  RAGAssistant.__init__ env w = (Ok a, w') ->
  VectorDB.collection_name (RAGAssistant.vector_db a)
  = default "rag_documents" (env !! "CHROMA_COLLECTION_NAME")
  /\ VectorDB.embedding_model_name (RAGAssistant.vector_db a)
     = default "sentence-transformers/all-MiniLM-L6-v2"
         (env !! "EMBEDDING_MODEL")
  /\ SentenceTransformer
       (VectorDB.embedding_model_name (RAGAssistant.vector_db a))
     = Ok (VectorDB.embedding_model (RAGAssistant.vector_db a))
  /\ w_adds w' = w_adds w.
Proof.
  intros Hinit.
  assert (Hadds : w_adds w' = w_adds w).
  { pose proof (no_write_init env w) as H. by rewrite Hinit in H. }
  revert Hinit. unfold RAGAssistant.__init__, bind at 1.
  destruct (RAGAssistant._initialize_llm env w) as [[c|e] w1]; [|discriminate].
  unfold bind at 1, VectorDB.__init__, bind at 1.
  unfold print at 1, write at 1. cbn match. unfold bind at 1, lift at 1.
  destruct (SentenceTransformer _) as [m|e] eqn:Hm; [|discriminate].
  unfold bind at 1, VectorDB.open_collection. cbn [w_db w_out w_adds].
  destruct (get_or_create_collection _ _) as [[[]|e] d]; [|discriminate].
  run. intros [= <- _]. cbn.
  unfold getenv_default in *.
  destruct (env !! "CHROMA_COLLECTION_NAME"), (env !! "EMBEDDING_MODEL");
    auto.
Qed.

(** X15: the client that [_initialize_llm] returns holds the value of its
    provider's credential variable, which is not empty: a credential set
    to the empty text is passed over like an unset one. Its model is the
    value of the provider's model variable when that is set, even to the
    empty text, and the provider's default otherwise. *)
Theorem llm_client_fields (env : gmap string string) (w : world)
    (c : llm_client) :
  fst (RAGAssistant._initialize_llm env w) = Ok c ->
  env !! credential_var (llm_provider c) = Some (llm_api_key c)
  /\ llm_api_key c <> ""
  /\ llm_model c
     = default (default_model (llm_provider c))
         (env !! model_var (llm_provider c))
  /\ (forall p, env !! credential_var p = Some "" -> llm_provider c <> p).
Proof.
  intros Hc.
  destruct (selected_provider env) as [q|] eqn:Hsel;
    [|by rewrite (initialize_llm_none env w Hsel) in Hc].
  rewrite (initialize_llm_selected env w q Hsel) in Hc.
  injection Hc as <-. cbn [client_for llm_provider llm_api_key llm_model].
  apply find_some in Hsel as [_ Hq]. unfold present in Hq.
  destruct (truthy_inv _ Hq) as (s & Hs & Hne).
  rewrite Hs. cbn. split; [done|]. split; [done|]. split.
  - unfold getenv_default. by destruct (env !! model_var q).
  - intros p Hp ->. rewrite Hp in Hs. by injection Hs as <-.
Qed.
End Configuration.

Lemma assistant_configuration_witness :
  let a := @RAGAssistant.Make (Reference.services [])
             (LLM Groq "gsk" "llama-3.1-8b-instant")
             (@VectorDB.Make (Reference.services []) "papers"
                "sentence-transformers/all-MiniLM-L6-v2"
                "sentence-transformers/all-MiniLM-L6-v2") in
  VectorDB.collection_name (RAGAssistant.vector_db a)
  = default "rag_documents"
      ((<["CHROMA_COLLECTION_NAME" := "papers"]> Sample.env_groq_google)
         !! "CHROMA_COLLECTION_NAME").
Proof.
  intros a.
  refine (proj1 (@assistant_configuration (Reference.services [])
    (<["CHROMA_COLLECTION_NAME" := "papers"]> Sample.env_groq_google)
    (Reference.start [])
    (snd (@RAGAssistant.__init__ (Reference.services [])
            (<["CHROMA_COLLECTION_NAME" := "papers"]> Sample.env_groq_google)
            (Reference.start [])))
    a _)).
  apply injective_projections; [vm_compute; exact eq_refl | exact eq_refl].
Defined.

Lemma llm_client_fields_witness :
  llm_api_key (LLM Groq "gsk" "") <> ""
  /\ llm_model (LLM Groq "gsk" "") = "".
Proof.
  assert (H : fst (@RAGAssistant._initialize_llm (Reference.services [])
                     (<["OPENAI_API_KEY" := ""]>
                        (<["GROQ_MODEL" := ""]> Sample.env_groq_google))
                     (Reference.start []))
              = Ok (LLM Groq "gsk" "")) by (vm_compute; reflexivity).
  destruct (@llm_client_fields (Reference.services []) _ _ _ H)
    as (_ & Hkey & Hmodel & _).
  split; [exact Hkey|]. rewrite Hmodel. vm_compute. reflexivity.
Defined.

(** ** PDF pages *)

Lemma join_empty_cons (t : string) (ts : list string) :
  join "" (t :: ts) = t +:+ join "" ts.
Proof.
  destruct ts as [|t' ts]; [|reflexivity].
  cbn. induction t as [|c t IH]; [done|]. rewrite app_String. by rewrite <- IH.
Qed.

Lemma read_pages_from (acc : string) (texts : list string)
    (rest : list (result string)) :
  fold_left (fun a page =>
               match a, page with
               | Ok text, Ok t => Ok (text +:+ t)
               | Ok _, Raise e => Raise e
               | Raise e, _ => Raise e
               end) (map Ok texts ++ rest) (Ok acc)
  = fold_left (fun a page =>
               match a, page with
               | Ok text, Ok t => Ok (text +:+ t)
               | Ok _, Raise e => Raise e
               | Raise e, _ => Raise e
               end) rest (Ok (acc +:+ join "" texts)).
Proof.
  revert acc. induction texts as [|t texts IH]; intros acc.
  - cbn [map app join]. f_equal. f_equal.
    induction acc as [|c acc IHa]; [done|]. rewrite app_String. by rewrite <- IHa.
  - cbn [map app fold_left]. rewrite IH, join_empty_cons.
    by rewrite string_app_assoc.
Qed.

(** X16: the text of a PDF is the text of its pages, put together in page
    order with nothing between them; the first page that cannot be read
    fails the whole file with that page's error, whatever follows. *)
Theorem read_pages_in_page_order (texts : list string) (e : exn)
    (rest : list (result string)) :
  read_pages (map Ok texts) = Ok (join "" texts)
  /\ read_pages (map Ok texts ++ Raise e :: rest) = Raise e.
Proof.
  unfold read_pages. split.
  - rewrite <- (app_nil_r (map Ok texts)), read_pages_from. reflexivity.
  - rewrite read_pages_from. cbn [fold_left].
    induction rest as [|p rest IH]; [done|]. exact IH.
Qed.

(** ** Completed calls *)

Section Completed.
Context `{X : Externals}.

Lemma add_loop_completed (self : VectorDB.t) (docs : list pyval) (i : nat)
    (w w1 : world) :
  VectorDB.add_loop self i docs w = (Ok tt, w1) ->
  exists L : list add_call,
    w_adds w1 = w_adds w ++ L /\ length L = length docs.
Proof.
  revert i w. induction docs as [|doc rest IH]; intros i w.
  { cbn. unfold ret. intros [= <-]. exists []. by rewrite app_nil_r. }
  rewrite add_loop_step.
  destruct (document_chunks doc) as [[metadata chunks]|e]; [|discriminate].
  cbv zeta. destruct (encode _ chunks) as [embs|e]; [|discriminate].
  destruct (collection_add _ _ _ _ _ _) as [[[]|e] d]; [|discriminate].
  intros H. destruct (IH _ _ H) as (L & HL & Hlen).
  eexists (_ :: L). cbn in HL. rewrite HL, <- app_assoc.
  split; [reflexivity|]. cbn. by rewrite Hlen.
Qed.

(** X17: a call of [add_documents] that completes has sent the store
    exactly one write per document, in document order; a document without
    chunks is not skipped but written as an empty batch. *)
Theorem add_documents_one_write_per_document (self : VectorDB.t)
    (docs : list pyval) (w w1 : world) :
  VectorDB.add_documents self docs w = (Ok tt, w1) ->
  exists L : list add_call,
    w_adds w1 = w_adds w ++ L
    /\ length L = length docs
    /\ (forall k c, L !! k = Some c ->
          ac_ids c = VectorDB.chunk_ids k (length (ac_documents c))).
Proof.
  rewrite add_documents_unfold.
  match goal with
  | |- context [VectorDB.add_loop self 0 docs ?w0] =>
      destruct (VectorDB.add_loop self 0 docs w0) as [[[]|e] v] eqn:Hloop;
        [destruct (add_loop_completed _ _ _ _ _ Hloop) as (L & HL & Hlen);
         destruct (add_loop_trace self docs 0 w0) as (ns & L' & _ & HL' & Hids);
         rewrite Hloop in HL'; cbn in HL, HL'
        |discriminate]
  end.
  intros [= <-]. cbn [w_adds]. exists L. split; [exact HL|].
  split; [exact Hlen|].
  rewrite HL in HL'. apply app_inv_head in HL' as <-.
  destruct (add_loop_calls self docs 0
              (World (w_db w)
                 (w_out w ++ [("Processing " +:+ pretty (length docs)
                                 +:+ " documents...") +:+ nl])
                 (w_adds w))) as (L2 & HL2 & Hcalls).
  rewrite Hloop in HL2. cbn in HL2. rewrite HL in HL2.
  apply app_inv_head in HL2 as <-.
  intros k c Hk.
  assert (Hbatch : map ac_ids L !! k = Some (ac_ids c)).
  { change ((ac_ids <$> L) !! k = Some (ac_ids c)).
    by rewrite list_lookup_fmap, Hk. }
  rewrite Hids in Hbatch.
  apply lookup_zip_with_Some in Hbatch as (i & n & Heq & Hi & Hn).
  apply lookup_seq in Hi as [-> _]. rewrite Heq. cbn.
  rewrite Forall_forall in Hcalls.
  destruct (Hcalls c) as (k' & _ & _ & _ & _ & _ & _ & Hid' & _).
  { by eapply list_elem_of_lookup_2. }
  rewrite Hid' in Heq. unfold VectorDB.chunk_ids in Heq.
  apply (f_equal length) in Heq.
  rewrite !List.length_map, !List.length_seq in Heq. by rewrite Heq.
Qed.
End Completed.

Lemma add_documents_one_write_per_document_witness :
  exists L : list (@add_call (Reference.services [])),
    length L = 2
    /\ (forall k c, L !! k = Some c ->
          ac_ids c = VectorDB.chunk_ids k (length (ac_documents c))).
Proof.
  destruct (@add_documents_one_write_per_document (Reference.services [])
              (Reference.vdb [])
              [Sample.sky_document;
               PDict [("content", PStr "Grass is green.");
                      ("metadata", PDict [("source", PStr "grass.txt")])]]
              Sample.opened
              (snd (VectorDB.add_documents (Reference.vdb [])
                      [Sample.sky_document;
                       PDict [("content", PStr "Grass is green.");
                              ("metadata",
                                PDict [("source", PStr "grass.txt")])]]
                      Sample.opened)))
    as (L & _ & Hlen & Hids).
  { vm_compute. exact eq_refl. }
  exists L. split; [exact Hlen | exact Hids].
Defined.
